(** * cppmusic performance scripts: regression checker and dashboard

    A shallow embedding of [scripts/check_regressions.py] and of the
    comparison part of [scripts/generate_performance_dashboard.py].

    The code is modelled twice, because its numbers are.

    - The first model covers both scripts from the files to the exit
      status.  A Python [float] is an exact rational ([Q]) there: rounding,
      the infinities and NaN are left out, and so is the [OverflowError] of
      an integer too large for a float.  It carries the properties that do
      not depend on them: the control flow of [main], the loaders, the exit
      policy, the report, the zero-baseline fault.  Division is the one
      arithmetic operation that can fail; [py_div] raises
      [ZeroDivisionError] on a zero divisor, as Python does.
    - The second model, in the module [Binary64], is the comparator
      ([analyze_regressions], [categorize_severity] and the ranking) on
      binary64 numbers, Rocq's primitive floats: the products
      [threshold * 3] and [threshold * 2] are rounded, a percentage change
      can be NaN or infinite, and a JSON integer is converted as Python
      converts it.  It carries the properties of the severity classes, of
      the flags and of the ranking.

    Common conventions.
    - The document returned by [json.load] is a [json] value.  A loaded JSON
      object is a Python [dict]: an association list in insertion order
      (its keys are distinct; theorems that depend on it say so).
    - The baseline built by the loaders is a [dict] used as a map only
      ([in], indexing, emptiness): a [gmap] from names to numbers.
    - An exception is a value of [exn]; a computation that can raise returns
      a [result].
    - [list.sort] is a stable sort; it is modelled by a stable insertion
      sort, which computes the same list as every other stable sort when
      the key order is a total preorder: the case for pairs of a [bool] and
      a rational, and for pairs of a [bool] and a binary64 number as long
      as no key holds NaN. *)

From Stdlib Require Import QArith Qabs Lqa Lia Ascii String Floats.
From stdpp Require Import base option list sorting gmap strings.

Local Open Scope string_scope.

(** ** Exceptions and results *)

Inductive exn : Set :=
| ZeroDivisionError
| AttributeError
| TypeError
| OverflowError.

Inductive result (A : Type) : Type :=
| Ok (a : A)
| Raise (e : exn).
Arguments Ok {A} a.
Arguments Raise {A} e.

#[global] Instance result_bind : MBind result := fun A B k m =>
  match m with
  | Ok a => k a
  | Raise e => Raise e
  end.

(** ** Numbers *)

(** Python's [x < y] on numbers. *)
Definition Qltb (x y : Q) : bool := negb (Qle_bool y x).

(** Python's [x / y] on floats. *)
Definition py_div (x y : Q) : result Q :=
  if Qeq_bool y 0 then Raise ZeroDivisionError else Ok (x / y)%Q.

(** ** JSON documents *)

Local Set Warnings "-register-all".

Inductive json : Type :=
| JNull
| JBool (b : bool)
| JNum (q : Q)
| JStr (s : string)
| JArr (l : list json)
| JObj (fields : list (string * json)).

(** Python truthiness, as tested by [if not current_results]. *)
Definition truthy (j : json) : bool :=
  match j with
  | JNull => false
  | JBool b => b
  | JNum q => negb (Qeq_bool q 0)
  | JStr s => negb (String.eqb s "")
  | JArr l => match l with [] => false | _ => true end
  | JObj fields => match fields with [] => false | _ => true end
  end.

(** [d[k]] on an association list: the entry of the key. *)
Fixpoint assoc {V : Type} (k : string) (d : list (string * V)) : option V :=
  match d with
  | [] => None
  | (k', v) :: d' => if String.eqb k k' then Some v else assoc k d'
  end.

(** [current.get(key, default)]: only a dict has [get]. *)
Definition dict_get (j : json) (key : string) (default : json) : result json :=
  match j with
  | JObj fields =>
      match assoc key fields with
      | Some v => Ok v
      | None => Ok default
      end
  | _ => Raise AttributeError
  end.

(** [d.items()]: only a dict has [items]. *)
Definition dict_items (j : json) : result (list (string * json)) :=
  match j with
  | JObj fields => Ok fields
  | _ => Raise AttributeError
  end.

(** The operand of [current_time - baseline_time]: a JSON number, or a JSON
    boolean (Python's [bool] is an [int]); anything else is a [TypeError]. *)
Definition as_number (j : json) : result Q :=
  match j with
  | JNum q => Ok q
  | JBool true => Ok 1%Q
  | JBool false => Ok 0%Q
  | _ => Raise TypeError
  end.

(** ** check_regressions.py *)

Inductive severity_t : Set :=
| critical
| major
| minor
| negligible
| major_improvement
| minor_improvement.

#[global] Instance severity_eq_dec : EqDecision severity_t.
Proof. solve_decision. Defined.

(** The dict built for each metric by [analyze_regressions]. *)
Record regression_info : Type := {
  testName : string;
  currentValue : json;
  baselineValue : Q;
  percentageChange : Q;
  isRegression : bool;
  isImprovement : bool;
  severity : severity_t
}.

Definition categorize_severity (change_percent threshold : Q) : severity_t :=
  let abs_change := Qabs change_percent in
  if Qltb 0 change_percent then
    if Qltb (threshold * 3) abs_change then critical
    else if Qltb (threshold * 2) abs_change then major
    else if Qltb threshold abs_change then minor
    else negligible
  else
    if Qltb (threshold * 2) abs_change then major_improvement
    else if Qltb threshold abs_change then minor_improvement
    else negligible.

(** The sort key [(not x["isRegression"], -abs(x["percentageChange"]))]. *)
Definition sort_key (x : regression_info) : bool * Q :=
  (negb (isRegression x), - Qabs (percentageChange x))%Q.

(** Python's [<] on such tuples: the first components that differ decide. *)
Definition key_lt (k1 k2 : bool * Q) : bool :=
  if negb (Bool.eqb (fst k1) (fst k2)) then negb (fst k1) && fst k2
  else if negb (Qeq_bool (snd k1) (snd k2)) then Qltb (snd k1) (snd k2)
  else false.

Section Sort.
Context {A K : Type} (key : A -> K) (lt : K -> K -> bool).

(** [x] goes in front of the first element whose key is not smaller. *)
Fixpoint insert_by (x : A) (l : list A) : list A :=
  match l with
  | [] => [x]
  | y :: l' => if lt (key y) (key x) then y :: insert_by x l' else x :: l
  end.

(** [l.sort(key=key)]. *)
Fixpoint sort_by (l : list A) : list A :=
  match l with
  | [] => []
  | x :: l' => insert_by x (sort_by l')
  end.
End Sort.

(** The ranking step of [analyze_regressions]. *)
Definition rank (regressions : list regression_info) : list regression_info :=
  sort_by sort_key key_lt regressions.

(** The body of the loop over [current_times.items()]: [None] is [continue]. *)
Definition analyze_metric (baseline : gmap string Q) (threshold : Q)
    (metric_name : string) (current_time : json)
  : result (option regression_info) :=
  match baseline !! metric_name with
  | None => Ok None
  | Some baseline_time =>
      c ← as_number current_time;
      d ← py_div (c - baseline_time) baseline_time;
      let change_percent := (d * 100)%Q in
      Ok (Some {| testName := metric_name;
                  currentValue := current_time;
                  baselineValue := baseline_time;
                  percentageChange := change_percent;
                  isRegression := Qltb threshold change_percent;
                  isImprovement := Qltb change_percent (- threshold);
                  severity := categorize_severity change_percent threshold |})
  end.

(** The loop: the records appended so far are [acc]. *)
Fixpoint analyze_items (baseline : gmap string Q) (threshold : Q)
    (items : list (string * json)) (acc : list regression_info)
  : result (list regression_info) :=
  match items with
  | [] => Ok acc
  | (metric_name, current_time) :: items' =>
      r ← analyze_metric baseline threshold metric_name current_time;
      analyze_items baseline threshold items'
        (match r with Some info => acc ++ [info] | None => acc end)
  end.

Definition analyze_regressions (current : json) (baseline : gmap string Q)
    (threshold : Q) : result (list regression_info) :=
  current_times ← dict_get current "averageTimes" (JObj []);
  items ← dict_items current_times;
  regressions ← analyze_items baseline threshold items [];
  Ok (rank regressions).

(** The summary block of the report. *)
Record summary_t : Type := {
  total_metrics : nat;
  regressions : nat;
  improvements : nat;
  critical_regressions : nat;
  major_regressions : nat
}.

Record report_t : Type := {
  timestamp : string;
  summary : summary_t;
  details : list regression_info
}.

(** [len([r for r in regressions if p(r)])]. *)
Definition count (p : regression_info -> bool) (l : list regression_info) : nat :=
  length (List.filter p l).

Definition has_severity (s : severity_t) (r : regression_info) : bool :=
  bool_decide (severity r = s).

(** [generate_regression_report]: the report it writes and returns; [now] is
    [str(datetime.now())]. *)
Definition generate_regression_report (now : string)
    (regressions : list regression_info) : report_t :=
  {| timestamp := now;
     summary := {| total_metrics := length regressions;
                   regressions := count isRegression regressions;
                   improvements := count isImprovement regressions;
                   critical_regressions := count (has_severity critical) regressions;
                   major_regressions := count (has_severity major) regressions |};
     details := regressions |}.

(** The banner [check_exit_conditions] prints: FAILURE, WARNING or SUCCESS. *)
Inductive verdict : Set := FAIL | WARN | PASS.

(** [check_exit_conditions]: the banner printed and the code returned. *)
Definition check_exit_conditions (regressions : list regression_info)
  : verdict * Z :=
  let critical_count := count (has_severity critical) regressions in
  let major_count := count (has_severity major) regressions in
  if (0 <? critical_count)%nat then (FAIL, 1%Z)
  else if (3 <? major_count)%nat then (FAIL, 1%Z)
  else if (0 <? major_count)%nat then (WARN, 0%Z)
  else (PASS, 0%Z).

(** The report [main] writes when there is no baseline. *)
Definition empty_report (now : string) : report_t :=
  {| timestamp := now;
     summary := {| total_metrics := 0; regressions := 0; improvements := 0;
                   critical_regressions := 0; major_regressions := 0 |};
     details := [] |}.

(** The command line of [check_regressions.py] ([--current], [--baseline]
    and [--output] name files; their contents are arguments of [main]). *)
Record args_t : Type := {
  threshold : Q;
  fail_on_regression : bool;
  verbose : bool
}.

(** How a run ends: the exit status of the process and the report written to
    [--output], if any.  An uncaught exception ends the process with status 1. *)
Inductive outcome : Type :=
| Exited (code : Z) (written : option report_t)
| Uncaught (e : exn) (written : option report_t).

Definition exit_code (o : outcome) : Z :=
  match o with
  | Exited code _ => code
  | Uncaught _ _ => 1%Z
  end.

Definition report_written (o : outcome) : option report_t :=
  match o with
  | Exited _ w => w
  | Uncaught _ w => w
  end.

(** [load_current_results]: [None] is a file that cannot be opened or parsed;
    the except branch returns the empty dict. *)
Definition load_current_results (file : option json) : json :=
  match file with
  | Some j => j
  | None => JObj []
  end.

Section Loaders.
(** Python's built-in [float] on a string: [None] is [ValueError]. *)
Variable py_float : string -> option Q.

(** A CSV file is its rows, each a list of fields; [None] is a file that
    cannot be opened. *)
Definition csv_file : Type := option (list (list string)).

(** The loop of [load_baseline_results]: the inner [try] skips a row whose
    value does not parse. *)
Fixpoint load_baseline_rows (rows : list (list string))
    (baseline : gmap string Q) : gmap string Q :=
  match rows with
  | [] => baseline
  | row :: rows' =>
      match row with
      | name :: value :: _ =>
          match py_float value with
          | Some v => load_baseline_rows rows' (<[name := v]> baseline)
          | None => load_baseline_rows rows' baseline
          end
      | _ => load_baseline_rows rows' baseline
      end
  end.

Definition load_baseline_results (file : csv_file) : gmap string Q :=
  match file with
  | Some rows => load_baseline_rows rows ∅
  | None => ∅
  end.

(** The loop of the dashboard's [load_baseline_data]: there is no inner
    [try], so a [ValueError] leaves the loop for the outer [except], which
    returns what was loaded so far. *)
Fixpoint load_baseline_data_rows (rows : list (list string))
    (baseline : gmap string Q) : gmap string Q :=
  match rows with
  | [] => baseline
  | row :: rows' =>
      match row with
      | name :: value :: _ =>
          match py_float value with
          | Some v => load_baseline_data_rows rows' (<[name := v]> baseline)
          | None => baseline
          end
      | _ => load_baseline_data_rows rows' baseline
      end
  end.

Definition load_baseline_data (file : csv_file) : gmap string Q :=
  match file with
  | Some rows => load_baseline_data_rows rows ∅
  | None => ∅
  end.

(** [main] of [check_regressions.py]. *)
Definition main (args : args_t) (now : string)
    (current_file : option json) (baseline_file : csv_file) : outcome :=
  let current_results := load_current_results current_file in
  if negb (truthy current_results) then Exited 1 None
  else
    let baseline_results := load_baseline_results baseline_file in
    if bool_decide (baseline_results = ∅) then
      Exited 0 (Some (empty_report now))
    else
      match analyze_regressions current_results baseline_results
              (threshold args) with
      | Raise e => Uncaught e None
      | Ok regressions =>
          let report := generate_regression_report now regressions in
          if fail_on_regression args then
            Exited (snd (check_exit_conditions regressions)) (Some report)
          else Exited 0 (Some report)
      end.
End Loaders.

(** A reader of plain decimal literals ([12], [-3.25], [+0.5]): one instance
    of what [float] accepts, used to run the loaders on concrete files. *)
Definition digit_of (c : ascii) : option Z :=
  let n := Z.of_N (Ascii.N_of_ascii c) in
  if ((48 <=? n) && (n <=? 57))%Z then Some (n - 48)%Z else None.

Fixpoint digits (s : string) (acc : Z) (scale : positive) (frac : bool)
    (seen : bool) : option Q :=
  match s with
  | EmptyString => if seen then Some (acc # scale) else None
  | String c s' =>
      if Ascii.eqb c "."%char then
        if frac then None else digits s' acc scale true seen
      else
        match digit_of c with
        | Some d =>
            digits s' (acc * 10 + d)%Z
              (if frac then scale * 10 else scale)%positive frac true
        | None => None
        end
  end.

Definition decimal_float (s : string) : option Q :=
  match s with
  | String "-"%char s' => q ← digits s' 0 1 false false; Some (- q)%Q
  | String "+"%char s' => digits s' 0 1 false false
  | _ => digits s 0 1 false false
  end.

(** ** generate_performance_dashboard.py *)

Inductive status_t : Set := regression | improvement | stable.

(** An entry of the dict built by [calculate_performance_changes]. *)
Record change_t : Type := {
  current : json;
  baseline : Q;
  change_percent : Q;
  status : status_t
}.

(** The loop of [calculate_performance_changes]; [changes] is keyed by
    metric name. *)
Fixpoint calculate_items (baseline_data : gmap string Q)
    (items : list (string * json)) (changes : gmap string change_t)
  : result (gmap string change_t) :=
  match items with
  | [] => Ok changes
  | (metric, value) :: items' =>
      match baseline_data !! metric with
      | None => calculate_items baseline_data items' changes
      | Some b =>
          v ← as_number value;
          d ← py_div (v - b) b;
          let change := (d * 100)%Q in
          calculate_items baseline_data items'
            (<[metric := {| current := value;
                            baseline := b;
                            change_percent := change;
                            status := if Qltb 5 change then regression
                                      else if Qltb change (-5) then improvement
                                      else stable |}]> changes)
      end
  end.

Definition calculate_performance_changes (current : json)
    (baseline_data : gmap string Q) : result (gmap string change_t) :=
  times ← dict_get current "averageTimes" (JObj []);
  items ← dict_items times;
  calculate_items baseline_data items ∅.

(** ** The console summary of check_regressions.py *)

(** The names of the severities in the source. *)
Definition severity_name (s : severity_t) : string :=
  match s with
  | critical => "critical"
  | major => "major"
  | minor => "minor"
  | negligible => "negligible"
  | major_improvement => "major_improvement"
  | minor_improvement => "minor_improvement"
  end.

(** [severity_counts[severity] = severity_counts.get(severity, 0) + 1] on a
    dict in insertion order. *)
Fixpoint bump (s : severity_t) (d : list (severity_t * nat))
  : list (severity_t * nat) :=
  match d with
  | [] => [(s, 1%nat)]
  | (s', n) :: d' =>
      if bool_decide (s = s') then (s', (n + 1)%nat) :: d'
      else (s', n) :: bump s d'
  end.

(** The loop that fills [severity_counts]. *)
Fixpoint count_severities (regressions : list regression_info)
    (severity_counts : list (severity_t * nat)) : list (severity_t * nat) :=
  match regressions with
  | [] => severity_counts
  | r :: regressions' =>
      count_severities regressions' (bump (severity r) severity_counts)
  end.

(** An item of [severity_counts.items()] as the tuple [sorted] compares. *)
Definition item_key (kv : severity_t * nat) : string * nat :=
  (severity_name (fst kv), snd kv).

(** Python's [<] on tuples of a [str] and an [int]. *)
Definition item_lt (a b : string * nat) : bool :=
  if negb (String.eqb (fst a) (fst b)) then String.ltb (fst a) (fst b)
  else if negb (Nat.eqb (snd a) (snd b)) then Nat.ltb (snd a) (snd b)
  else false.

(** What [print_regression_summary] prints, line by line: the five counts,
    the records listed under the critical and the major banner, the records
    listed as top improvements, and the severity distribution.  A printed
    line is kept as the record (or the pair) it formats. *)
Record console_summary : Type := {
  shown_total : nat;
  shown_regressions : nat;
  shown_improvements : nat;
  shown_critical : nat;
  shown_major : nat;
  critical_lines : list regression_info;
  major_lines : list regression_info;
  top_improvements : list regression_info;
  distribution : list (severity_t * nat)
}.

Definition print_regression_summary (regressions : list regression_info)
  : console_summary :=
  let total := length regressions in
  let regressions_count := count isRegression regressions in
  let improvements_count := count isImprovement regressions in
  let critical_count := count (has_severity critical) regressions in
  let major_count := count (has_severity major) regressions in
  let improvements := List.filter isImprovement regressions in
  {| shown_total := total;
     shown_regressions := regressions_count;
     shown_improvements := improvements_count;
     shown_critical := critical_count;
     shown_major := major_count;
     critical_lines :=
       if (0 <? critical_count)%nat
       then List.filter (has_severity critical) regressions else [];
     major_lines :=
       if (0 <? major_count)%nat
       then List.filter (has_severity major) regressions else [];
     top_improvements :=
       match improvements with [] => [] | _ => take 5 improvements end;
     distribution :=
       sort_by item_key item_lt (count_severities regressions []) |}.

(** ** The figures of the dashboard *)

Inductive alert_t : Set :=
| alert_warning (regression_count : nat)
| alert_success.

(** The values [generate_dashboard_html] computes and substitutes into its
    template; the rows of the changes table are the entries of
    [changes_table]. *)
Record dashboard_t : Type := {
  total_tests : nat;
  avg_processing_time : Q;
  memory_usage : Q;
  regression_count : nat;
  alerts : alert_t;
  changes_table : gmap string change_t;
  component_metrics : list (string * Q * Q);
  metric_names : list string;
  metric_values : list (option json);
  memory_available : Z
}.

(** [sum(values)]: the running total starts at 0. *)
Fixpoint py_sum (values : list json) (acc : Q) : result Q :=
  match values with
  | [] => Ok acc
  | v :: values' => x ← as_number v; py_sum values' (acc + x)%Q
  end.

(** [min(100, x)]: the second argument is returned when it is smaller. *)
Definition py_min100 (x : Q) : Q := if Qltb x 100 then x else 100%Q.

(** [int(x)] on a float: truncation toward zero. *)
Definition py_int (x : Q) : Z := Z.quot (Qnum x) (Zpos (Qden x)).

(** The loop that builds the component metrics: name, time and the width of
    the performance bar. *)
Fixpoint component_rows (items : list (string * json))
  : result (list (string * Q * Q)) :=
  match items with
  | [] => Ok []
  | (metric, time) :: items' =>
      t ← as_number time;
      rows ← component_rows items';
      Ok ((metric, t, py_min100 (t / 10 * 100)%Q) :: rows)
  end.

Definition is_regression_entry (kv : string * change_t) : bool :=
  match status (snd kv) with regression => true | _ => false end.

(** [generate_dashboard_html], up to the call of [html_template.format]:
    [metric_values] holds [avg_times[name]] for each charted name, [None]
    standing for a [KeyError]. *)
Definition generate_dashboard_html (performance_data : json)
    (baseline_data : gmap string Q) : result dashboard_t :=
  changes ← calculate_performance_changes performance_data baseline_data;
  avg_times ← dict_get performance_data "averageTimes" (JObj []);
  items ← dict_items avg_times;
  avg ← (match items with
         | [] => Ok 0%Q
         | _ => total ← py_sum (snd <$> items) 0;
                Ok (total / inject_Z (Z.of_nat (length items)))%Q
         end);
  memory ← dict_get performance_data "totalMemoryUsage" (JNum 0);
  memory_bytes ← as_number memory;
  let memory_mb := (memory_bytes / inject_Z (1024 * 1024))%Q in
  let count := length (List.filter is_regression_entry (map_to_list changes)) in
  rows ← component_rows items;
  let names := take 10 (fst <$> items) in
  Ok {| total_tests := length items;
        avg_processing_time := avg;
        memory_usage := memory_mb;
        regression_count := count;
        alerts := if (0 <? count)%nat then alert_warning count
                  else alert_success;
        changes_table := changes;
        component_metrics := rows;
        metric_names := names;
        metric_values := (fun name => assoc name items) <$> names;
        memory_available := Z.max 0 (100 - py_int memory_mb) |}.

(** ** Vocabulary of the statements *)

(** The current result set of a document: [doc] is a dict whose
    [averageTimes] entry maps the names of [times] to their numbers. *)
Definition average_times_of (doc : json) (times : list (string * Q)) : Prop :=
  exists fields,
    doc = JObj fields /\
    assoc "averageTimes" fields
      = Some (JObj ((fun kv => (fst kv, JNum (snd kv))) <$> times)).

(** The record is one the comparator builds at threshold [t]. *)
Definition built_at (t : Q) (r : regression_info) : Prop :=
  isRegression r = Qltb t (percentageChange r) /\
  isImprovement r = Qltb (percentageChange r) (- t) /\
  severity r = categorize_severity (percentageChange r) t.

(** The record of metric [m] with current value [c] and baseline value [b]:
    its percentage change is [(c - b) / b * 100]. *)
Definition record_of (t : Q) (m : string) (c b : Q) : regression_info :=
  let change := ((c - b) / b * 100)%Q in
  {| testName := m;
     currentValue := JNum c;
     baselineValue := b;
     percentageChange := change;
     isRegression := Qltb t change;
     isImprovement := Qltb change (- t);
     severity := categorize_severity change t |}.

(** The records of the metrics of [times] that have a baseline, in the
    order of [times]. *)
Fixpoint records_of (t : Q) (baseline : gmap string Q)
    (times : list (string * Q)) : list regression_info :=
  match times with
  | [] => []
  | (m, c) :: times' =>
      match baseline !! m with
      | Some b => record_of t m c b :: records_of t baseline times'
      | None => records_of t baseline times'
      end
  end.

(** No metric common to both sets has a zero baseline. *)
Definition nonzero_baselines (baseline : gmap string Q)
    (times : list (string * Q)) : Prop :=
  forall m c b, (m, c) ∈ times -> baseline !! m = Some b -> ~ (b == 0)%Q.

(** The document is a dict without an [averageTimes] entry. *)
Definition lacks_average_times (doc : json) : Prop :=
  exists fields, doc = JObj fields /\ assoc "averageTimes" fields = None.

(** The document is not a dict, or its [averageTimes] entry is not one. *)
Definition not_a_result_set (doc : json) : Prop :=
  match doc with
  | JObj fields =>
      match assoc "averageTimes" fields with
      | None | Some (JObj _) => False
      | Some _ => True
      end
  | _ => True
  end.

(** The [averageTimes] of the document give a value that is not a number to
    some metric of the baseline. *)
Definition non_number_metric (baseline : gmap string Q) (doc : json) : Prop :=
  exists fields items m v b,
    doc = JObj fields /\
    assoc "averageTimes" fields = Some (JObj items) /\
    (m, v) ∈ items /\
    baseline !! m = Some b /\
    as_number v = Raise TypeError.

(** The value field of the row parses, or the row has no value field. *)
Definition well_formed (py_float : string -> option Q) (row : list string)
  : bool :=
  match row with
  | _ :: value :: _ =>
      match py_float value with Some _ => true | None => false end
  | _ => true
  end.

(** The entry the dashboard builds for a metric with current value [c] and
    baseline value [b]. *)
Definition change_of (c b : Q) : change_t :=
  let change := ((c - b) / b * 100)%Q in
  {| current := JNum c;
     baseline := b;
     change_percent := change;
     status := if Qltb 5 change then regression
               else if Qltb change (-5) then improvement
               else stable |}.

(** The banner of the exit policy on what the comparator returned. *)
Definition verdict_of (r : result (list regression_info)) : option verdict :=
  match r with
  | Ok recs => Some (fst (check_exit_conditions recs))
  | Raise _ => None
  end.

(** Name, severity and flags of the records the comparator returned. *)
Definition shape_of (r : result (list regression_info))
  : list (string * severity_t * bool * bool) :=
  match r with
  | Ok recs =>
      (fun x => (testName x, severity x, isRegression x, isImprovement x))
        <$> recs
  | Raise _ => []
  end.

(** ** Sample inputs *)

(** Scenario B of the specification: one metric, 20% slower. *)
Definition current_B : json := JObj [("averageTimes", JObj [("a", JNum 120)])].
Definition baseline_B : gmap string Q := <["a" := 100%Q]> ∅.

(** Two measured metrics, one of them without history, and a baseline that
    also knows a metric that was not measured. *)
Definition current_W : json :=
  JObj [("averageTimes", JObj [("a", JNum 120); ("c", JNum 7)])].
Definition times_W : list (string * Q) := [("a", 120%Q); ("c", 7%Q)].
Definition baseline_W : gmap string Q := <["a" := 100%Q]> (<["b" := 50%Q]> ∅).

(** Scenario C of the specification: one metric, 20% faster. *)
Definition current_C : json := JObj [("averageTimes", JObj [("a", JNum 80)])].

(** Two metrics with history; the baseline of the second one is zero. *)
Definition current_A : json :=
  JObj [("averageTimes", JObj [("a", JNum 1); ("b", JNum 1)])].
Definition times_A : list (string * Q) := [("a", 1%Q); ("b", 1%Q)].
Definition baseline_A : gmap string Q := <["a" := 1%Q]> (<["b" := 0%Q]> ∅).

(** A document that has content but no [averageTimes] entry. *)
Definition current_X : json := JObj [("memoryUsage", JNum 42)].

(** Two documents that are not result sets: a list, and a dict whose
    [averageTimes] entry is null. *)
Definition current_L : json := JArr [JNum 1].
Definition current_U : json := JObj [("averageTimes", JNull)].

(** A metric whose recorded baseline is zero. *)
Definition baseline_Z : gmap string Q := <["a" := 0%Q]> ∅.

(** A baseline file whose first row has a value that is not a number. *)
Definition rows_bad_first : list (list string) := [["a"; "x"]; ["b"; "1.0"]].

(** Scenario D of the specification: four metrics, each 12% slower. *)
Definition current_D : json :=
  JObj [("averageTimes",
         JObj [("a", JNum 112); ("b", JNum 112); ("c", JNum 112);
               ("d", JNum 112)])].
Definition baseline_D : gmap string Q :=
  <["a" := 100%Q]> (<["b" := 100%Q]> (<["c" := 100%Q]> (<["d" := 100%Q]> ∅))).

(** Five metrics: [a] and [d] are tied regressions, [c] a larger one, [b]
    and [e] tied improvements. *)
Definition current_T : json :=
  JObj [("averageTimes",
         JObj [("a", JNum 110); ("b", JNum 80); ("c", JNum 120);
               ("d", JNum 110); ("e", JNum 80)])].
Definition baseline_T : gmap string Q :=
  <["a" := 100%Q]> (<["b" := 100%Q]> (<["c" := 100%Q]>
    (<["d" := 100%Q]> (<["e" := 100%Q]> ∅)))).

Definition args_default : args_t :=
  {| threshold := 5; fail_on_regression := false; verbose := false |}.

Definition args_gating : args_t :=
  {| threshold := 5; fail_on_regression := true; verbose := false |}.

(** The row adds an entry to the baseline: it has a name and a value that
    parses. *)
Definition loadable (py_float : string -> option Q) (row : list string)
  : bool :=
  match row with
  | _ :: value :: _ =>
      match py_float value with Some _ => true | None => false end
  | _ => false
  end.

(** The rows in front of the first row whose value does not parse. *)
Fixpoint good_prefix (py_float : string -> option Q)
    (rows : list (list string)) : list (list string) :=
  match rows with
  | [] => []
  | row :: rows' =>
      if well_formed py_float row then row :: good_prefix py_float rows'
      else []
  end.

(** A document whose values are not numbers, and a baseline for other
    metrics. *)
Definition current_S : json :=
  JObj [("averageTimes", JObj [("a", JStr "fast"); ("b", JNull)])].
Definition baseline_S : gmap string Q := <["c" := 0%Q]> ∅.

(** The count a severity has in [severity_counts], 0 when it is not a key. *)
Fixpoint tally (s : severity_t) (d : list (severity_t * nat)) : nat :=
  match d with
  | [] => 0%nat
  | (s', n) :: d' => if bool_decide (s = s') then n else tally s d'
  end.

(** The place of a severity name in alphabetical order. *)
Definition alphabetical (s : severity_t) : nat :=
  match s with
  | critical => 0
  | major => 1
  | major_improvement => 2
  | minor => 3
  | minor_improvement => 4
  | negligible => 5
  end%nat.

(** The document gives [memory] as its total memory usage (0 when it has no
    [totalMemoryUsage] entry). *)
Definition memory_of (doc : json) (memory : Q) : Prop :=
  dict_get doc "totalMemoryUsage" (JNum 0) = Ok (JNum memory).

(** The entries of the metrics of [times] that have a baseline, in the
    order of [times]. *)
Fixpoint changes_of (baseline_data : gmap string Q)
    (times : list (string * Q)) : list (string * change_t) :=
  match times with
  | [] => []
  | (m, c) :: times' =>
      match baseline_data !! m with
      | Some b => (m, change_of c b) :: changes_of baseline_data times'
      | None => changes_of baseline_data times'
      end
  end.

(** The two metrics of [current_W] with a memory usage of 5 MB. *)
Definition current_M : json :=
  JObj [("averageTimes", JObj [("a", JNum 120); ("c", JNum 7)]);
        ("totalMemoryUsage", JNum 5242880)].

(** * The comparator on binary64 numbers *)

(** [analyze_regressions] once more, with Python's [float] as it is: a
    binary64 number with its rounding, its infinities and NaN.  A JSON
    integer stays a Python [int] until the subtraction converts it. *)

Module Binary64.
Local Open Scope float_scope.

(** What [json.load] returns: an integer literal is an [int], a literal
    with a fraction or an exponent is a [float]; so are [NaN] and
    [Infinity], which [json.load] accepts. *)
Inductive json : Type :=
| JNull
| JBool (b : bool)
| JInt (n : Z)
| JFloat (x : float)
| JStr (s : string)
| JArr (l : list json)
| JObj (fields : list (string * json)).

(** [current.get(key, default)]: only a dict has [get]. *)
Definition dict_get (j : json) (key : string) (default : json) : result json :=
  match j with
  | JObj fields =>
      match assoc key fields with
      | Some v => Ok v
      | None => Ok default
      end
  | _ => Raise AttributeError
  end.

(** [d.items()]: only a dict has [items]. *)
Definition dict_items (j : json) : result (list (string * json)) :=
  match j with
  | JObj fields => Ok fields
  | _ => Raise AttributeError
  end.

(** The conversion of an [int] operand of a float operation: the nearest
    binary64 number, ties to even; an [int] beyond the range of the format
    is an [OverflowError]. *)
Definition int_to_float (n : Z) : result float :=
  let x := SF2Prim (binary_normalize prec emax n 0 false) in
  if is_infinity x then Raise OverflowError else Ok x.

(** The left operand of [current_time - baseline_time], whose right operand
    is a [float]: a [float], an [int] or a [bool] (an [int] in Python);
    anything else is a [TypeError]. *)
Definition as_float (j : json) : result float :=
  match j with
  | JFloat x => Ok x
  | JInt n => int_to_float n
  | JBool true => Ok 1
  | JBool false => Ok 0
  | _ => Raise TypeError
  end.

(** Python's [x / y] on floats: a zero divisor of either sign raises. *)
Definition py_div (x y : float) : result float :=
  if y =? 0 then Raise ZeroDivisionError else Ok (x / y).

(** The dict built for each metric by [analyze_regressions]. *)
Record regression_info : Type := {
  testName : string;
  currentValue : json;
  baselineValue : float;
  percentageChange : float;
  isRegression : bool;
  isImprovement : bool;
  severity : severity_t
}.

Definition categorize_severity (change_percent threshold : float)
  : severity_t :=
  let abs_change := abs change_percent in
  if 0 <? change_percent then
    if threshold * 3 <? abs_change then critical
    else if threshold * 2 <? abs_change then major
    else if threshold <? abs_change then minor
    else negligible
  else
    if threshold * 2 <? abs_change then major_improvement
    else if threshold <? abs_change then minor_improvement
    else negligible.

(** The sort key [(not x["isRegression"], -abs(x["percentageChange"]))]. *)
Definition sort_key (x : regression_info) : bool * float :=
  (negb (isRegression x), - abs (percentageChange x)).

(** Python's [<] on such tuples: the first components that are not [==]
    decide; NaN is not [==] to anything, and not [<] anything either. *)
Definition key_lt (k1 k2 : bool * float) : bool :=
  if negb (Bool.eqb (fst k1) (fst k2)) then negb (fst k1) && fst k2
  else if negb (snd k1 =? snd k2) then snd k1 <? snd k2
  else false.

(** The ranking step of [analyze_regressions].  On keys that [<] compares
    consistently, which is the case when none of them holds NaN, every
    stable sort returns the same list, and [sort_by] is one.  With a NaN key
    the result of [list.sort] depends on its algorithm; a list in which no
    element is [<] its predecessor is a single ascending run, which
    [list.sort] leaves as it is, and so does [sort_by]. *)
Definition rank (regressions : list regression_info) : list regression_info :=
  sort_by sort_key key_lt regressions.

(** The body of the loop over [current_times.items()]: [None] is [continue]. *)
Definition analyze_metric (baseline : gmap string float) (threshold : float)
    (metric_name : string) (current_time : json)
  : result (option regression_info) :=
  match baseline !! metric_name with
  | None => Ok None
  | Some baseline_time =>
      c ← as_float current_time;
      d ← py_div (c - baseline_time) baseline_time;
      let change_percent := d * 100 in
      Ok (Some {| testName := metric_name;
                  currentValue := current_time;
                  baselineValue := baseline_time;
                  percentageChange := change_percent;
                  isRegression := threshold <? change_percent;
                  isImprovement := change_percent <? - threshold;
                  severity := categorize_severity change_percent threshold |})
  end.

(** The loop: the records appended so far are [acc]. *)
Fixpoint analyze_items (baseline : gmap string float) (threshold : float)
    (items : list (string * json)) (acc : list regression_info)
  : result (list regression_info) :=
  match items with
  | [] => Ok acc
  | (metric_name, current_time) :: items' =>
      r ← analyze_metric baseline threshold metric_name current_time;
      analyze_items baseline threshold items'
        (match r with Some info => acc ++ [info] | None => acc end)%list
  end.

Definition analyze_regressions (current : json) (baseline : gmap string float)
    (threshold : float) : result (list regression_info) :=
  current_times ← dict_get current "averageTimes" (JObj []);
  items ← dict_items current_times;
  regressions ← analyze_items baseline threshold items [];
  Ok (rank regressions).

(** The records [print_regression_summary] lists under TOP IMPROVEMENTS:
    [improvements[:5]], when there is an improvement. *)
Definition top_improvements (regressions : list regression_info)
  : list regression_info :=
  let improvements := List.filter isImprovement regressions in
  match improvements with [] => [] | _ => take 5 improvements end.

(** *** Vocabulary of the statements *)

(** The record is one the comparator builds at threshold [t]. *)
Definition built_at (t : float) (r : regression_info) : Prop :=
  isRegression r = (t <? percentageChange r) /\
  isImprovement r = (percentageChange r <? - t) /\
  severity r = categorize_severity (percentageChange r) t.

(** [a] and [b] are tied on both parts of the sort key. *)
Definition tied (a b : regression_info) : bool :=
  Bool.eqb (isRegression a) (isRegression b)
  && (abs (percentageChange a) =? abs (percentageChange b)).

(** [a] may stand before [b] in a ranked list: the key of [b] is not smaller. *)
Definition key_le (a b : regression_info) : Prop :=
  key_lt (sort_key b) (sort_key a) = false.

(** The percentage change of the record is a number. *)
Definition is_number (r : regression_info) : Prop :=
  is_nan (percentageChange r) = false.

(** The current result set of a document: [doc] is a dict whose
    [averageTimes] entry maps the names of [times] to their floats. *)
Definition average_times_of (doc : json) (times : list (string * float))
  : Prop :=
  exists fields,
    doc = JObj fields /\
    assoc "averageTimes" fields
      = Some (JObj ((fun kv => (fst kv, JFloat (snd kv))) <$> times)).

(** The record of metric [m] with current value [c] and baseline value [b]:
    its percentage change is the binary64 value of [((c - b) / b) * 100]. *)
Definition record_of (t : float) (m : string) (c b : float)
  : regression_info :=
  let change := ((c - b) / b) * 100 in
  {| testName := m;
     currentValue := JFloat c;
     baselineValue := b;
     percentageChange := change;
     isRegression := t <? change;
     isImprovement := change <? - t;
     severity := categorize_severity change t |}.

(** The records of the metrics of [times] that have a baseline, in the
    order of [times]. *)
Fixpoint records_of (t : float) (baseline : gmap string float)
    (times : list (string * float)) : list regression_info :=
  match times with
  | [] => []
  | (m, c) :: times' =>
      match baseline !! m with
      | Some b => record_of t m c b :: records_of t baseline times'
      | None => records_of t baseline times'
      end
  end.

(** No metric common to both sets has a zero baseline. *)
Definition nonzero_baselines (baseline : gmap string float)
    (times : list (string * float)) : Prop :=
  forall m c b, (m, c) ∈ times -> baseline !! m = Some b -> (b =? 0) = false.

(** The record is the one of metric [m]. *)
Definition named (m : string) (r : regression_info) : bool :=
  String.eqb (testName r) m.

(** *** Sample inputs *)

(** Three metrics within the threshold; the recorded baseline of [b] is
    NaN, which is what [float] returns for the CSV field [nan]. *)
Definition current_N : json :=
  JObj [("averageTimes",
         JObj [("a", JFloat 101); ("b", JFloat 5); ("c", JFloat 103)])].
Definition baseline_N : gmap string float :=
  <["a" := 100]> (<["b" := nan]> (<["c" := 100]> ∅)).

(** Scenario B of the specification: one metric, 20% slower. *)
Definition current_B : json :=
  JObj [("averageTimes", JObj [("a", JFloat 120)])].
Definition baseline_B : gmap string float := <["a" := 100]> ∅.

(** Five metrics: [a] and [d] are tied regressions, [c] a larger one, [b]
    and [e] tied improvements. *)
Definition times_T : list (string * float) :=
  [("a", 110); ("b", 80); ("c", 120); ("d", 110); ("e", 80)].
Definition current_T : json :=
  JObj [("averageTimes",
         JObj ((fun kv => (fst kv, JFloat (snd kv))) <$> times_T))].
Definition baseline_T : gmap string float :=
  <["a" := 100]> (<["b" := 100]> (<["c" := 100]>
    (<["d" := 100]> (<["e" := 100]> ∅)))).

End Binary64.

(** ** Binary64 numbers in order *)

(** The place of a binary64 number in the order of the format: [ord] grows
    with the number, on the numbers that are not NaN.  A finite number is
    [m * 2 ^ e] with [m] below [2 ^ 53 = 9007199254740992] and [e] from
    -1074 to 971, so that the exponent counts before the mantissa; the
    infinities stand at [2047 * 2 ^ 53]. *)
Definition ord (x : spec_float) : Z :=
  match x with
  | S754_zero _ => 0
  | S754_nan => 0
  | S754_infinity s =>
      if s then - 18437736874454810624 else 18437736874454810624
  | S754_finite s m e =>
      let v := (e + 1075) * 9007199254740992 + Z.pos m in
      if s then - v else v
  end%Z.

Definition SFis_nan (x : spec_float) : bool :=
  match x with S754_nan => true | _ => false end.

(** The place of a Python [float]. *)
Definition fval (x : float) : Z := ord (Prim2SF x).

(** The sort key of a record as one integer: the keys of the regressions
    are below the keys of the other records. *)
Definition zkey (r : Binary64.regression_info) : Z :=
  ((if Binary64.isRegression r then 0 else 73750947497819242496)
   - Z.abs (fval (Binary64.percentageChange r)))%Z.

(** * Properties *)

(** ** Comparisons on numbers *)

Lemma Qltb_lt (x y : Q) : Qltb x y = true <-> (x < y)%Q.
Proof.
  unfold Qltb. rewrite negb_true_iff, <- not_true_iff_false, Qle_bool_iff.
  split; intros H; [apply Qnot_le_lt | apply Qlt_not_le]; exact H.
Qed.

Lemma Qltb_ge (x y : Q) : Qltb x y = false <-> (y <= x)%Q.
Proof.
  unfold Qltb. rewrite negb_false_iff. apply Qle_bool_iff.
Qed.

(** Reading a test of the code as the order it decides. *)
Ltac test_cases :=
  repeat match goal with
    | |- context [Qltb ?x ?y] =>
        let E := fresh "E" in
        destruct (Qltb x y) eqn:E;
        [apply Qltb_lt in E | apply Qltb_ge in E]
    | H : context [Qltb ?x ?y] |- _ =>
        let E := fresh "E" in
        destruct (Qltb x y) eqn:E;
        [apply Qltb_lt in E | apply Qltb_ge in E]
    end.

(** ** The scenarios of the specification *)

Example scenario_A :
  let out := analyze_regressions
               (JObj [("averageTimes", JObj [("a", JNum 100)])]) baseline_B 5 in
  shape_of out = [("a", negligible, false, false)] /\ verdict_of out = Some PASS.
Proof. vm_compute. split; reflexivity. Qed.

Example scenario_B :
  let out := analyze_regressions current_B baseline_B 5 in
  shape_of out = [("a", critical, true, false)] /\ verdict_of out = Some FAIL.
Proof. vm_compute. split; reflexivity. Qed.

Example scenario_C :
  let out := analyze_regressions current_C baseline_B 5 in
  shape_of out = [("a", major_improvement, false, true)]
  /\ verdict_of out = Some PASS.
Proof. vm_compute. split; reflexivity. Qed.

Example scenario_D :
  let out := analyze_regressions current_D baseline_D 5 in
  shape_of out = [("a", major, true, false); ("b", major, true, false);
                  ("c", major, true, false); ("d", major, true, false)]
  /\ verdict_of out = Some FAIL.
Proof. vm_compute. split; reflexivity. Qed.

Example ranking_with_ties :
  shape_of (analyze_regressions current_T baseline_T 5)
  = [("c", critical, true, false); ("a", minor, true, false);
     ("d", minor, true, false); ("b", major_improvement, false, true);
     ("e", major_improvement, false, true)].
Proof. vm_compute. reflexivity. Qed.

(** ** The stable sort *)

Lemma insert_by_perm (x : regression_info) (l : list regression_info) :
  insert_by sort_key key_lt x l ≡ₚ x :: l.
Proof.
  induction l as [| y l IH]; simpl; [reflexivity |].
  destruct (key_lt (sort_key y) (sort_key x)); [| reflexivity].
  rewrite IH. apply Permutation_swap.
Qed.

Lemma rank_perm (l : list regression_info) : rank l ≡ₚ l.
Proof.
  unfold rank. induction l as [| x l IH]; simpl; [reflexivity |].
  rewrite insert_by_perm, IH. reflexivity.
Qed.

(** ** The comparator *)

Lemma py_div_nonzero (x y : Q) : ~ (y == 0)%Q -> py_div x y = Ok (x / y)%Q.
Proof.
  intros Hy. unfold py_div. destruct (Qeq_bool y 0) eqn:E; [| reflexivity].
  apply Qeq_bool_iff in E. contradiction.
Qed.

Lemma analyze_metric_built (baseline : gmap string Q) (t : Q) (m : string)
    (v : json) (info : regression_info) :
  analyze_metric baseline t m v = Ok (Some info) -> built_at t info.
Proof.
  unfold analyze_metric. destruct (baseline !! m) as [b |]; [| discriminate].
  destruct (as_number v) as [c | e]; [| discriminate]. simpl.
  destruct (py_div (c - b) b) as [d | e]; [| discriminate]. simpl.
  intros [= <-]. repeat split.
Qed.

Lemma analyze_items_built (baseline : gmap string Q) (t : Q)
    (items : list (string * json)) :
  forall acc recs,
    analyze_items baseline t items acc = Ok recs ->
    Forall (built_at t) acc -> Forall (built_at t) recs.
Proof.
  induction items as [| [m v] items IH]; simpl; intros acc recs H Hacc.
  - injection H as <-. exact Hacc.
  - destruct (analyze_metric baseline t m v) as [r | e] eqn:E;
      [| discriminate]. simpl in H.
    apply (IH _ _ H). destruct r as [info |]; [| exact Hacc].
    apply Forall_app. split; [exact Hacc |].
    constructor; [| constructor]. eapply analyze_metric_built, E.
Qed.

Lemma analyze_regressions_built (doc : json) (baseline : gmap string Q)
    (t : Q) (recs : list regression_info) :
  analyze_regressions doc baseline t = Ok recs -> Forall (built_at t) recs.
Proof.
  unfold analyze_regressions.
  destruct (dict_get doc "averageTimes" (JObj [])) as [ts | e];
    [| discriminate]. simpl.
  destruct (dict_items ts) as [items | e]; [| discriminate]. simpl.
  destruct (analyze_items baseline t items []) as [l | e] eqn:E;
    [| discriminate]. simpl.
  intros [= <-]. rewrite rank_perm.
  eapply analyze_items_built; [exact E | constructor].
Qed.

Lemma analyze_items_records (baseline : gmap string Q) (t : Q)
    (times : list (string * Q)) :
  nonzero_baselines baseline times ->
  forall acc,
    analyze_items baseline t ((fun kv => (fst kv, JNum (snd kv))) <$> times) acc
    = Ok (acc ++ records_of t baseline times)%list.
Proof.
  induction times as [| [m c] times IH]; intros Hnz acc; simpl.
  - rewrite app_nil_r. reflexivity.
  - assert (nonzero_baselines baseline times) as Hnz'.
    { intros m' c' b' Hin. apply (Hnz m' c' b'). right. exact Hin. }
    unfold analyze_metric. destruct (baseline !! m) as [b |] eqn:Hb; simpl.
    + rewrite py_div_nonzero by (apply (Hnz m c b); [left | exact Hb]).
      simpl. rewrite (IH Hnz'), <- app_assoc. reflexivity.
    + apply (IH Hnz').
Qed.

Lemma analyze_regressions_records (doc : json) (times : list (string * Q))
    (baseline : gmap string Q) (t : Q) :
  average_times_of doc times ->
  nonzero_baselines baseline times ->
  analyze_regressions doc baseline t = Ok (rank (records_of t baseline times)).
Proof.
  intros (fields & -> & Hf) Hnz. unfold analyze_regressions. simpl.
  rewrite Hf. simpl. rewrite (analyze_items_records _ _ _ Hnz). reflexivity.
Qed.

Lemma elem_of_records_of (t : Q) (baseline : gmap string Q)
    (times : list (string * Q)) (r : regression_info) :
  r ∈ records_of t baseline times <->
  exists m c b, (m, c) ∈ times /\ baseline !! m = Some b /\ r = record_of t m c b.
Proof.
  induction times as [| [m c] times IH]; simpl.
  - split; [intros H; inversion H | intros (? & ? & ? & H & _); inversion H].
  - destruct (baseline !! m) as [b |] eqn:Hb.
    + rewrite elem_of_cons, IH. split.
      * intros [-> | (m' & c' & b' & Hin & Hb' & ->)].
        -- exists m, c, b. repeat split; [left | exact Hb].
        -- exists m', c', b'. repeat split; [right; exact Hin | exact Hb'].
      * intros (m' & c' & b' & Hin & Hb' & ->).
        apply elem_of_cons in Hin as [[= -> ->] | Hin].
        -- left. congruence.
        -- right. exists m', c', b'. auto.
    + rewrite IH. split.
      * intros (m' & c' & b' & Hin & Hb' & ->).
        exists m', c', b'. repeat split; [right; exact Hin | exact Hb'].
      * intros (m' & c' & b' & Hin & Hb' & ->).
        apply elem_of_cons in Hin as [[= -> ->] | Hin]; [congruence |].
        exists m', c', b'. auto.
Qed.

Lemma nonzero_baselines_W : nonzero_baselines baseline_W times_W.
Proof.
  intros m c b Hin Hb.
  apply elem_of_cons in Hin as [[= -> ->] | Hin];
    [| apply elem_of_cons in Hin as [[= -> ->] | Hin]; [| inversion Hin]];
    vm_compute in Hb;
    first [discriminate Hb | injection Hb as <-; unfold Qeq; simpl; lia].
Qed.

(** C1 on the code: metric [a] is present in both sets with the nonzero
    baseline 1, yet [analyze_regressions] returns no record for it, because
    the zero baseline of the other common metric [b] makes the whole call
    raise [ZeroDivisionError]. *)
Theorem analyze_regressions_aborts_on_other_zero_baseline :
  average_times_of current_A times_A /\
  ("a", 1%Q) ∈ times_A /\
  baseline_A !! "a" = Some 1%Q /\
  analyze_regressions current_A baseline_A 5 = Raise ZeroDivisionError.
Proof.
  split; [eexists; split; reflexivity |]. split; [left |].
  vm_compute. split; reflexivity.
Qed.

(** ** Flags and severity of a record *)

Lemma Qabs_cases (c : Q) :
  ((0 <= c)%Q /\ (Qabs c == c)%Q) \/ ((c < 0)%Q /\ (Qabs c == - c)%Q).
Proof.
  destruct (Qlt_le_dec c 0) as [H | H].
  - right. split; [exact H | apply Qabs_neg; lra].
  - left. split; [exact H | apply Qabs_pos; exact H].
Qed.

Lemma built_at_flags (t : Q) (r : regression_info) :
  (0 <= t)%Q -> built_at t r ->
  ~ (isRegression r = true /\ isImprovement r = true) /\
  ((isRegression r = false /\ isImprovement r = false)
   <-> (Qabs (percentageChange r) <= t)%Q) /\
  (severity r = critical -> isRegression r = true) /\
  (severity r = major_improvement \/ severity r = minor_improvement ->
   isImprovement r = true).
Proof.
  intros Ht (Hreg & Himp & Hsev). rewrite Hreg, Himp, Hsev.
  unfold categorize_severity.
  destruct (Qabs_cases (percentageChange r)) as [[Hc Ha] | [Hc Ha]].
  all: repeat split.
  all: try (intros [H1 H2]); try (intros [H1 | H1]); try (intros H1).
  all: test_cases; try reflexivity; try discriminate; try lra.
Qed.

(** ** The exit policy *)

Lemma improvement_not_failing (t : Q) (r : regression_info) :
  (0 <= t)%Q -> built_at t r -> isImprovement r = true ->
  has_severity critical r = false /\ has_severity major r = false.
Proof.
  intros Ht (_ & Himp & Hsev) Hi. rewrite Himp in Hi. apply Qltb_lt in Hi.
  unfold has_severity. rewrite Hsev. unfold categorize_severity.
  assert (Qltb 0 (percentageChange r) = false) as -> by (apply Qltb_ge; lra).
  split; test_cases; reflexivity.
Qed.

Lemma count_none (p : regression_info -> bool) (l : list regression_info) :
  Forall (fun r => p r = false) l -> count p l = 0%nat.
Proof.
  unfold count. induction 1 as [| r l Hr _ IH]; simpl; [reflexivity |].
  rewrite Hr. exact IH.
Qed.

Ltac exit_tests :=
  repeat match goal with
    | E : (_ <? _)%nat = true |- _ => apply Nat.ltb_lt in E
    | E : (_ <? _)%nat = false |- _ => apply Nat.ltb_ge in E
    end.

(** C4. [check_exit_conditions] fails (FAILURE banner, code 1) exactly when
    there is a critical record or more than 3 major records; it warns
    (WARNING banner, code 0) exactly when there is no critical record and
    between 1 and 3 major records; in every other case it passes (SUCCESS
    banner, code 0).  In particular a list whose records all have an
    improvement severity passes, and so do the records returned by
    [analyze_regressions] at a threshold [t >= 0] when all of them have
    [isImprovement] true. *)
Theorem check_exit_conditions_policy (recs : list regression_info) :
  let critical_count := length (List.filter (has_severity critical) recs) in
  let major_count := length (List.filter (has_severity major) recs) in
  (check_exit_conditions recs = (FAIL, 1%Z)
   <-> (0 < critical_count)%nat \/ (3 < major_count)%nat) /\
  (check_exit_conditions recs = (WARN, 0%Z)
   <-> critical_count = 0%nat /\ (1 <= major_count <= 3)%nat) /\
  (~ ((0 < critical_count)%nat \/ (3 < major_count)%nat) ->
   ~ (critical_count = 0%nat /\ (1 <= major_count <= 3)%nat) ->
   check_exit_conditions recs = (PASS, 0%Z)) /\
  (Forall (fun r => severity r = major_improvement
                    \/ severity r = minor_improvement) recs ->
   check_exit_conditions recs = (PASS, 0%Z)) /\
  (forall doc baseline t,
     (0 <= t)%Q ->
     analyze_regressions doc baseline t = Ok recs ->
     Forall (fun r => isImprovement r = true) recs ->
     check_exit_conditions recs = (PASS, 0%Z)).
Proof.
  cbv zeta. unfold check_exit_conditions.
  change (length (List.filter (has_severity critical) recs))
    with (count (has_severity critical) recs).
  change (length (List.filter (has_severity major) recs))
    with (count (has_severity major) recs).
  split; [| split; [| split; [| split]]].
  - split; intros H; repeat case_match; try discriminate; exit_tests;
      try reflexivity; lia.
  - split; intros H; repeat case_match; try discriminate; exit_tests;
      try reflexivity; lia.
  - intros H1 H2. repeat case_match; try reflexivity; exfalso; exit_tests; lia.
  - intros Himp. rewrite !count_none; [reflexivity | |].
    + eapply Forall_impl; [exact Himp |]. unfold has_severity.
      intros r [-> | ->]; reflexivity.
    + eapply Forall_impl; [exact Himp |]. unfold has_severity.
      intros r [-> | ->]; reflexivity.
  - intros doc baseline t Ht Hrun Himp.
    apply analyze_regressions_built in Hrun.
    assert (Forall (fun r => has_severity critical r = false
                             /\ has_severity major r = false) recs) as Hn.
    { rewrite Forall_forall in *. intros r Hr.
      apply (improvement_not_failing t); auto. }
    rewrite !count_none; [reflexivity | |].
    + eapply Forall_impl; [exact Hn |]. intros r [_ H]. exact H.
    + eapply Forall_impl; [exact Hn |]. intros r [H _]. exact H.
Qed.

Lemma check_exit_conditions_policy_witness :
  check_exit_conditions [record_of 5 "a" 80 100] = (PASS, 0%Z).
Proof.
  apply (check_exit_conditions_policy [record_of 5 "a" 80 100])
    with (doc := current_C) (baseline := baseline_B) (t := 5%Q).
  - vm_compute. discriminate.
  - vm_compute. reflexivity.
  - repeat constructor.
Defined.

(** ** The run *)

(** C7.  When the baseline set is empty (the run has loaded its current
    results and reached the baseline), the run writes a report whose
    details are empty and whose summary counts are all zero, and the
    process ends with code 0; the verdict on the (empty) details is PASS. *)
Theorem main_empty_baseline (py_float : string -> option Q) (args : args_t)
    (now : string) (current_file : option json) (baseline_file : csv_file) :
  truthy (load_current_results current_file) = true ->
  load_baseline_results py_float baseline_file = ∅ ->
  exists report,
    main py_float args now current_file baseline_file
    = Exited 0 (Some report) /\
    details report = [] /\
    summary report
    = {| total_metrics := 0; regressions := 0; improvements := 0;
         critical_regressions := 0; major_regressions := 0 |} /\
    check_exit_conditions (details report) = (PASS, 0%Z).
Proof.
  intros Hcur Hbase. exists (empty_report now). unfold main.
  rewrite Hcur, Hbase. simpl.
  rewrite bool_decide_eq_true_2 by reflexivity. repeat split.
Qed.

Lemma main_empty_baseline_witness :
  exists report,
    main decimal_float args_gating "2024-01-01" (Some current_B) None
    = Exited 0 (Some report) /\
    details report = [] /\
    summary report
    = {| total_metrics := 0; regressions := 0; improvements := 0;
         critical_regressions := 0; major_regressions := 0 |} /\
    check_exit_conditions (details report) = (PASS, 0%Z).
Proof.
  apply (main_empty_baseline decimal_float args_gating "2024-01-01"
           (Some current_B) None); reflexivity.
Defined.

Lemma analyze_regressions_no_times (doc : json) (baseline : gmap string Q)
    (t : Q) :
  lacks_average_times doc -> analyze_regressions doc baseline t = Ok [].
Proof.
  intros (fields & -> & Hf). unfold analyze_regressions. simpl.
  rewrite Hf. reflexivity.
Qed.

Lemma analyze_regressions_not_a_result_set (doc : json)
    (baseline : gmap string Q) (t : Q) :
  not_a_result_set doc ->
  analyze_regressions doc baseline t = Raise AttributeError.
Proof.
  unfold not_a_result_set, analyze_regressions.
  destruct doc as [| b | q | s | l | fields]; try reflexivity. simpl.
  destruct (assoc "averageTimes" fields) as [[| b | q | s | l | items] |];
    simpl; intros H; try reflexivity; contradiction.
Qed.

Lemma analyze_items_non_number (baseline : gmap string Q) (t : Q)
    (items : list (string * json)) (m : string) (v : json) (b : Q) :
  (m, v) ∈ items -> baseline !! m = Some b -> as_number v = Raise TypeError ->
  forall acc, exists e, analyze_items baseline t items acc = Raise e.
Proof.
  intros Hin Hb Hv. induction items as [| [k w] items IH]; intros acc.
  - inversion Hin.
  - simpl.
    destruct (analyze_metric baseline t k w) as [r | e] eqn:E; simpl;
      [| eauto].
    apply IH. apply elem_of_cons in Hin as [[= <- <-] | Hin]; [| exact Hin].
    unfold analyze_metric in E. rewrite Hb, Hv in E. discriminate E.
Qed.

(** C9, as the code has it.  Only current results that are absent,
    unreadable or empty are a load failure: the run ends with code 1 before
    the baseline is read or anything is analysed, and writes no report.  A
    non-empty dict without the [averageTimes] mapping is analysed as a
    result set without metrics: the report has no records and the run ends
    with code 0.  A non-empty document that is not a dict, or whose [averageTimes]
    entry is not one, makes [analyze_regressions] raise [AttributeError]:
    with a baseline that is not empty the run ends with the uncaught
    exception (status 1) and writes no report; with an empty baseline
    nothing is analysed and the run writes the empty report and ends with
    code 0.  A document whose [averageTimes] give a value that is not a
    number to a metric of the baseline makes [analyze_regressions] raise,
    and the run ends with the uncaught exception and no report. *)
Theorem main_current_load_failure (py_float : string -> option Q)
    (args : args_t) (now : string) (baseline_file : csv_file) :
  main py_float args now None baseline_file = Exited 1 None /\
  (forall doc, truthy doc = false ->
     main py_float args now (Some doc) baseline_file = Exited 1 None) /\
  (forall doc, truthy doc = true -> lacks_average_times doc ->
     analyze_regressions doc (load_baseline_results py_float baseline_file)
       (threshold args) = Ok [] /\
     main py_float args now (Some doc) baseline_file
     = Exited 0 (Some (empty_report now))) /\
  (forall doc, truthy doc = true -> not_a_result_set doc ->
     analyze_regressions doc (load_baseline_results py_float baseline_file)
       (threshold args) = Raise AttributeError /\
     (load_baseline_results py_float baseline_file <> ∅ ->
      main py_float args now (Some doc) baseline_file
      = Uncaught AttributeError None) /\
     (load_baseline_results py_float baseline_file = ∅ ->
      main py_float args now (Some doc) baseline_file
      = Exited 0 (Some (empty_report now)))) /\
  (forall doc,
     non_number_metric (load_baseline_results py_float baseline_file) doc ->
     exists e,
       analyze_regressions doc (load_baseline_results py_float baseline_file)
         (threshold args) = Raise e /\
       main py_float args now (Some doc) baseline_file = Uncaught e None).
Proof.
  split; [reflexivity |]. split; [| split; [| split]].
  - intros doc Hdoc. unfold main. simpl. rewrite Hdoc. reflexivity.
  - intros doc Hdoc Hlack.
    split; [apply analyze_regressions_no_times, Hlack |].
    unfold main. simpl. rewrite Hdoc. simpl.
    case_bool_decide; [reflexivity |].
    rewrite analyze_regressions_no_times by exact Hlack.
    destruct (fail_on_regression args); reflexivity.
  - intros doc Hdoc Hbad.
    split; [apply analyze_regressions_not_a_result_set, Hbad |].
    unfold main. simpl. rewrite Hdoc. simpl. split; intros Hbase.
    + rewrite bool_decide_eq_false_2 by exact Hbase.
      rewrite analyze_regressions_not_a_result_set by exact Hbad. reflexivity.
    + rewrite bool_decide_eq_true_2 by exact Hbase. reflexivity.
  - intros doc (fields & items & m & v & b & -> & Hf & Hin & Hb & Hv).
    destruct (analyze_items_non_number _ (threshold args) _ _ _ _ Hin Hb Hv [])
      as [e He].
    exists e.
    assert (analyze_regressions (JObj fields)
              (load_baseline_results py_float baseline_file) (threshold args)
            = Raise e) as Hrun.
    { unfold analyze_regressions. simpl. rewrite Hf. simpl. rewrite He.
      reflexivity. }
    split; [exact Hrun |].
    unfold main. simpl.
    destruct fields as [| f fields]; [discriminate Hf |]. simpl.
    rewrite bool_decide_eq_false_2.
    + rewrite Hrun. reflexivity.
    + intros Hempty. rewrite Hempty in Hb. rewrite lookup_empty in Hb.
      discriminate Hb.
Qed.

Lemma main_current_load_failure_witness :
  main decimal_float args_gating "2024-01-01" (Some current_U)
    (Some [["a"; "1.5"]])
  = Uncaught AttributeError None.
Proof.
  apply (main_current_load_failure decimal_float args_gating "2024-01-01"
           (Some [["a"; "1.5"]])).
  - reflexivity.
  - exact I.
  - intros H. apply (f_equal (fun b => b !! "a")) in H.
    vm_compute in H. discriminate H.
Defined.

(** A list is not a result set: with a baseline the run ends with the
    uncaught [AttributeError]; without one it writes the empty report. *)
Example main_document_not_a_dict :
  main decimal_float args_gating "2024-01-01" (Some current_L)
    (Some [["a"; "1.5"]])
  = Uncaught AttributeError None /\
  main decimal_float args_gating "2024-01-01" (Some current_L) None
  = Exited 0 (Some (empty_report "2024-01-01")).
Proof. vm_compute. split; reflexivity. Qed.

(** C9 as stated fails: the document [{"memoryUsage": 42}] lacks the
    [averageTimes] mapping, yet the run analyses it, writes a report and
    ends with code 0. *)
Lemma main_analyses_document_without_times :
  lacks_average_times current_X /\
  load_baseline_results decimal_float (Some [["a"; "1.5"]]) !! "a"
  = Some 1.5%Q /\
  analyze_regressions current_X
    (load_baseline_results decimal_float (Some [["a"; "1.5"]])) 5 = Ok [] /\
  let o := main decimal_float args_gating "2024-01-01" (Some current_X)
             (Some [["a"; "1.5"]]) in
  exit_code o = 0%Z /\
  report_written o = Some (empty_report "2024-01-01").
Proof.
  split; [eexists; split; reflexivity |].
  vm_compute. repeat split; reflexivity.
Qed.

(** ** Zero baselines *)

Lemma analyze_items_zero_baseline (baseline : gmap string Q) (t : Q)
    (times : list (string * Q)) (m : string) (c b : Q) :
  (m, c) ∈ times -> baseline !! m = Some b -> (b == 0)%Q ->
  forall acc,
    analyze_items baseline t ((fun kv => (fst kv, JNum (snd kv))) <$> times) acc
    = Raise ZeroDivisionError.
Proof.
  intros Hin Hb Hz. induction times as [| [k c'] times IH]; intros acc.
  - inversion Hin.
  - simpl. unfold analyze_metric.
    destruct (baseline !! k) as [b' |] eqn:Hk; simpl.
    + unfold py_div. destruct (Qeq_bool b' 0) eqn:E; [reflexivity |]. simpl.
      apply IH. apply elem_of_cons in Hin as [[= <- <-] | Hin]; [| exact Hin].
      rewrite Hb in Hk. injection Hk as <-.
      apply Qeq_bool_iff in Hz. congruence.
    + apply IH. apply elem_of_cons in Hin as [[= <- <-] | Hin]; [| exact Hin].
      congruence.
Qed.

Lemma calculate_items_zero_baseline (baseline_data : gmap string Q)
    (times : list (string * Q)) (m : string) (c b : Q) :
  (m, c) ∈ times -> baseline_data !! m = Some b -> (b == 0)%Q ->
  forall changes,
    calculate_items baseline_data
      ((fun kv => (fst kv, JNum (snd kv))) <$> times) changes
    = Raise ZeroDivisionError.
Proof.
  intros Hin Hb Hz. induction times as [| [k c'] times IH]; intros changes.
  - inversion Hin.
  - simpl. destruct (baseline_data !! k) as [b' |] eqn:Hk; simpl.
    + unfold py_div. destruct (Qeq_bool b' 0) eqn:E; [reflexivity |]. simpl.
      apply IH. apply elem_of_cons in Hin as [[= <- <-] | Hin]; [| exact Hin].
      rewrite Hb in Hk. injection Hk as <-.
      apply Qeq_bool_iff in Hz. congruence.
    + apply IH. apply elem_of_cons in Hin as [[= <- <-] | Hin]; [| exact Hin].
      congruence.
Qed.

(** C6, as the code has it.  When some metric is present in both sets with
    a zero baseline, the percentage-change computation has no result: both
    [analyze_regressions] and the dashboard's
    [calculate_performance_changes] raise [ZeroDivisionError], and no
    record is returned for any metric. *)
Theorem zero_baseline_raises (doc : json) (times : list (string * Q))
    (baseline_data : gmap string Q) (t : Q) (m : string) (c b : Q) :
  average_times_of doc times ->
  (m, c) ∈ times -> baseline_data !! m = Some b -> (b == 0)%Q ->
  analyze_regressions doc baseline_data t = Raise ZeroDivisionError /\
  calculate_performance_changes doc baseline_data = Raise ZeroDivisionError.
Proof.
  intros (fields & -> & Hf) Hin Hb Hz.
  unfold analyze_regressions, calculate_performance_changes. simpl.
  rewrite Hf. simpl. split.
  - rewrite (analyze_items_zero_baseline _ _ _ m c b Hin Hb Hz). reflexivity.
  - apply (calculate_items_zero_baseline _ _ m c b Hin Hb Hz).
Qed.

Lemma zero_baseline_raises_witness :
  analyze_regressions current_W baseline_Z 5 = Raise ZeroDivisionError /\
  calculate_performance_changes current_W baseline_Z = Raise ZeroDivisionError.
Proof.
  apply (zero_baseline_raises current_W times_W baseline_Z 5 "a" 120 0).
  - eexists. split; reflexivity.
  - left.
  - vm_compute. reflexivity.
  - reflexivity.
Defined.

(** The run itself ends with the uncaught exception and writes no report. *)
Lemma main_zero_baseline_uncaught :
  main decimal_float args_default "2024-01-01" (Some current_W)
    (Some [["a"; "0"]])
  = Uncaught ZeroDivisionError None.
Proof. vm_compute. reflexivity. Qed.

(** ** Loading the baseline *)

Lemma load_baseline_rows_filter (py_float : string -> option Q)
    (rows : list (list string)) :
  forall acc,
    load_baseline_rows py_float rows acc
    = load_baseline_rows py_float (List.filter (well_formed py_float) rows) acc.
Proof.
  induction rows as [| row rows IH]; intros acc; [reflexivity |].
  simpl. destruct row as [| name [| value rest]]; simpl; try apply IH.
  destruct (py_float value) as [v |] eqn:E; simpl; [| apply IH].
  rewrite E. apply IH.
Qed.

(** X4. The checker's loader skips each row whose value does not parse and
    loads all the others: the bad rows might as well not be in the file. *)
Lemma load_baseline_results_skips_bad_rows (py_float : string -> option Q)
    (rows : list (list string)) :
  load_baseline_results py_float (Some rows)
  = load_baseline_results py_float
      (Some (List.filter (well_formed py_float) rows)).
Proof. apply load_baseline_rows_filter. Qed.

(** The dashboard's loader keeps what it loaded before the first bad row and
    nothing after it. *)
Lemma load_baseline_data_stops (py_float : string -> option Q)
    (before after : list (list string)) (name value : string)
    (rest : list string) :
  py_float value = None ->
  Forall (fun row => well_formed py_float row = true) before ->
  load_baseline_data py_float
    (Some (before ++ (name :: value :: rest) :: after)%list)
  = load_baseline_data py_float (Some before).
Proof.
  intros Hbad Hgood. unfold load_baseline_data. generalize (∅ : gmap string Q).
  induction Hgood as [| row before Hrow _ IH]; intros acc; simpl.
  - rewrite Hbad. reflexivity.
  - destruct row as [| n [| v r]]; simpl; try apply IH.
    simpl in Hrow. destruct (py_float v); [apply IH | discriminate].
Qed.

(** C8 on the code: on a file whose first row is bad, the checker's loader
    loads the second row, and the dashboard's loader loads nothing. *)
Theorem baseline_loaders_differ_on_bad_row :
  load_baseline_results decimal_float (Some rows_bad_first) !! "b"
  = Some 1.0%Q /\
  load_baseline_data decimal_float (Some rows_bad_first) !! "b" = None /\
  load_baseline_data decimal_float (Some rows_bad_first) = ∅.
Proof. vm_compute. repeat split; reflexivity. Qed.

(** ** The dashboard against the checker *)

Lemma assoc_None (times : list (string * Q)) (m : string) :
  m ∉ times.*1 -> assoc m times = None.
Proof.
  induction times as [| [k c] times IH]; simpl; intros Hm; [reflexivity |].
  apply not_elem_of_cons in Hm as [Hk Hm].
  destruct (String.eqb_spec m k); [contradiction | exact (IH Hm)].
Qed.

Lemma assoc_elem_of (times : list (string * Q)) (m : string) (c : Q) :
  assoc m times = Some c -> (m, c) ∈ times.
Proof.
  induction times as [| [k c'] times IH]; simpl; [discriminate |].
  destruct (String.eqb_spec m k) as [-> | _].
  - intros [= ->]. left.
  - intros H. right. exact (IH H).
Qed.

Lemma elem_of_assoc (times : list (string * Q)) (m : string) (c : Q) :
  NoDup times.*1 -> (m, c) ∈ times -> assoc m times = Some c.
Proof.
  induction times as [| [k c'] times IH]; simpl; intros Hnd Hin.
  - inversion Hin.
  - apply NoDup_cons in Hnd as [Hk Hnd].
    apply elem_of_cons in Hin as [[= <- <-] | Hin].
    + rewrite String.eqb_refl. reflexivity.
    + destruct (String.eqb_spec m k) as [-> | _]; [| exact (IH Hnd Hin)].
      exfalso. apply Hk. apply list_elem_of_fmap. exists (k, c). auto.
Qed.

Lemma calculate_items_lookup (baseline_data : gmap string Q)
    (times : list (string * Q)) :
  nonzero_baselines baseline_data times ->
  NoDup times.*1 ->
  forall changes : gmap string change_t,
    (forall k, k ∈ times.*1 -> changes !! k = None) ->
    exists res : gmap string change_t,
      calculate_items baseline_data
        ((fun kv => (fst kv, JNum (snd kv))) <$> times) changes = Ok res /\
      forall m,
        res !! m = match assoc m times, baseline_data !! m with
                   | Some c, Some b => Some (change_of c b)
                   | _, _ => changes !! m
                   end.
Proof.
  induction times as [| [k c] times IH]; intros Hnz Hnd changes Hfresh.
  - exists changes. split; [reflexivity |]. intros m. reflexivity.
  - apply NoDup_cons in Hnd as [Hk Hnd]. simpl in Hk.
    assert (nonzero_baselines baseline_data times) as Hnz'.
    { intros m' c' b' Hin. apply (Hnz m' c' b'). right. exact Hin. }
    simpl. destruct (baseline_data !! k) as [b |] eqn:Hb; simpl.
    + rewrite py_div_nonzero by (apply (Hnz k c b); [left | exact Hb]).
      simpl. fold (change_of c b).
      destruct (IH Hnz' Hnd (<[k := change_of c b]> changes))
        as (res & Hres & Hlook).
      { intros k' Hk'. rewrite lookup_insert_ne; [| intros ->; exact (Hk Hk')].
        apply Hfresh. right. exact Hk'. }
      exists res. split; [exact Hres |]. intros m. rewrite Hlook. simpl.
      destruct (String.eqb_spec m k) as [-> | Hne].
      * rewrite (assoc_None _ _ Hk), Hb, lookup_insert_eq. reflexivity.
      * destruct (assoc m times), (baseline_data !! m); try reflexivity;
          apply lookup_insert_ne; congruence.
    + destruct (IH Hnz' Hnd changes) as (res & Hres & Hlook).
      { intros k' Hk'. apply Hfresh. right. exact Hk'. }
      exists res. split; [exact Hres |]. intros m. rewrite Hlook. simpl.
      destruct (String.eqb_spec m k) as [-> | Hne]; [| reflexivity].
      rewrite (assoc_None _ _ Hk), Hb. reflexivity.
Qed.

Lemma change_of_agrees (m : string) (c b : Q) :
  let r := record_of 5 m c b in
  let e := change_of c b in
  change_percent e = percentageChange r /\
  (status e = regression <-> isRegression r = true) /\
  (status e = improvement <-> isImprovement r = true) /\
  (status e = stable <-> isRegression r = false /\ isImprovement r = false).
Proof.
  simpl. split; [reflexivity |].
  repeat split; test_cases; try reflexivity; try discriminate;
    try (intros [? ?]; discriminate); lra.
Qed.



(** * Further properties of the code *)

(** ** When the comparison returns *)

Lemma calculate_items_returns (baseline_data : gmap string Q)
    (times : list (string * Q)) :
  nonzero_baselines baseline_data times ->
  forall changes, exists res,
    calculate_items baseline_data
      ((fun kv => (fst kv, JNum (snd kv))) <$> times) changes = Ok res.
Proof.
  induction times as [| [m c] times IH]; intros Hnz changes; simpl.
  - eauto.
  - assert (nonzero_baselines baseline_data times) as Hnz'.
    { intros m' c' b' Hin. apply (Hnz m' c' b'). right. exact Hin. }
    destruct (baseline_data !! m) as [b |] eqn:Hb; simpl; [| apply IH, Hnz'].
    rewrite py_div_nonzero by (apply (Hnz m c b); [left | exact Hb]).
    simpl. apply IH, Hnz'.
Qed.

Lemma analyze_items_disjoint (baseline : gmap string Q) (t : Q)
    (items : list (string * json)) :
  (forall m v, (m, v) ∈ items -> baseline !! m = None) ->
  forall acc, analyze_items baseline t items acc = Ok acc.
Proof.
  induction items as [| [m v] items IH]; intros Hd acc; simpl; [reflexivity |].
  unfold analyze_metric. rewrite (Hd m v) by left. simpl.
  apply IH. intros m' v' Hin. apply (Hd m' v'). right. exact Hin.
Qed.

Lemma calculate_items_disjoint (baseline_data : gmap string Q)
    (items : list (string * json)) :
  (forall m v, (m, v) ∈ items -> baseline_data !! m = None) ->
  forall changes, calculate_items baseline_data items changes = Ok changes.
Proof.
  induction items as [| [m v] items IH]; intros Hd changes; simpl;
    [reflexivity |].
  rewrite (Hd m v) by left.
  apply IH. intros m' v' Hin. apply (Hd m' v'). right. exact Hin.
Qed.

(** X3. When no measured metric has a baseline (in particular when the
    baseline is empty, or the document has no [averageTimes] entry), both
    comparisons return an empty result without looking at the measured
    values: values that are not numbers raise nothing, and neither does a
    zero baseline of a metric that was not measured. *)
Theorem no_common_metric_no_fault (doc : json)
    (items : list (string * json)) (baseline_data : gmap string Q) (t : Q) :
  dict_get doc "averageTimes" (JObj []) = Ok (JObj items) ->
  (forall m v, (m, v) ∈ items -> baseline_data !! m = None) ->
  analyze_regressions doc baseline_data t = Ok [] /\
  calculate_performance_changes doc baseline_data = Ok ∅.
Proof.
  intros Hget Hd. unfold analyze_regressions, calculate_performance_changes.
  rewrite Hget. simpl. split.
  - rewrite (analyze_items_disjoint _ _ _ Hd). reflexivity.
  - apply calculate_items_disjoint, Hd.
Qed.

Lemma no_common_metric_no_fault_witness :
  analyze_regressions current_S baseline_S 5 = Ok [] /\
  calculate_performance_changes current_S baseline_S = Ok ∅.
Proof.
  apply (no_common_metric_no_fault current_S
           [("a", JStr "fast"); ("b", JNull)] baseline_S 5).
  - reflexivity.
  - intros m v Hin.
    apply elem_of_cons in Hin as [[= -> ->] | Hin];
      [| apply elem_of_cons in Hin as [[= -> ->] | Hin]; [| inversion Hin]];
      vm_compute; reflexivity.
Defined.

(** ** The baseline loaders *)

Lemma load_baseline_rows_app (py_float : string -> option Q)
    (rows rows' : list (list string)) :
  forall acc,
    load_baseline_rows py_float (rows ++ rows') acc
    = load_baseline_rows py_float rows' (load_baseline_rows py_float rows acc).
Proof.
  induction rows as [| row rows IH]; intros acc; [reflexivity |].
  simpl. destruct row as [| name [| value rest]]; try apply IH.
  destruct (py_float value); apply IH.
Qed.

(** X5. Loading is row by row and a later row overrides an earlier one: a
    file that ends with a row whose value parses to [v] loads as the rest
    of the file with the row's name set to [v]; the name then maps to [v]
    and every other name maps to what the rest of the file gave it. *)
Theorem load_baseline_results_last_row_wins (py_float : string -> option Q)
    (rows : list (list string)) (name value : string) (rest : list string)
    (v : Q) :
  py_float value = Some v ->
  let loaded := load_baseline_results py_float
                  (Some (rows ++ [name :: value :: rest])%list) in
  loaded = <[name := v]> (load_baseline_results py_float (Some rows)) /\
  loaded !! name = Some v /\
  (forall m, m <> name ->
     loaded !! m = load_baseline_results py_float (Some rows) !! m).
Proof.
  intros Hv. cbv zeta. unfold load_baseline_results.
  rewrite load_baseline_rows_app. simpl. rewrite Hv. split; [reflexivity |].
  split.
  - apply lookup_insert_eq.
  - intros m Hm. apply lookup_insert_ne. congruence.
Qed.

Lemma load_baseline_results_last_row_wins_witness :
  let loaded := load_baseline_results decimal_float
                  (Some ([["a"; "1.5"]; ["b"; "2"]] ++ [["a"; "3"; "x"]])%list) in
  loaded
  = <["a" := 3%Q]>
      (load_baseline_results decimal_float (Some [["a"; "1.5"]; ["b"; "2"]])) /\
  loaded !! "a" = Some 3%Q /\
  (forall m, m <> "a" ->
     loaded !! m
     = load_baseline_results decimal_float
         (Some [["a"; "1.5"]; ["b"; "2"]]) !! m).
Proof.
  apply (load_baseline_results_last_row_wins decimal_float
           [["a"; "1.5"]; ["b"; "2"]] "a" "3" ["x"] 3%Q).
  reflexivity.
Defined.

Lemma load_baseline_rows_nonempty (py_float : string -> option Q)
    (rows : list (list string)) :
  forall acc : gmap string Q,
    acc <> ∅ -> load_baseline_rows py_float rows acc <> ∅.
Proof.
  induction rows as [| row rows IH]; intros acc Hacc; simpl; [exact Hacc |].
  destruct row as [| name [| value rest]]; try (apply IH, Hacc).
  destruct (py_float value); apply IH; [apply insert_non_empty | exact Hacc].
Qed.

Lemma load_baseline_rows_none_loadable (py_float : string -> option Q)
    (rows : list (list string)) :
  Forall (fun row => loadable py_float row = false) rows ->
  forall acc, load_baseline_rows py_float rows acc = acc.
Proof.
  induction 1 as [| row rows Hrow _ IH]; intros acc; simpl; [reflexivity |].
  destruct row as [| name [| value rest]]; try apply IH.
  simpl in Hrow. destruct (py_float value); [discriminate | apply IH].
Qed.

(** X6. The checker's loader returns the empty baseline exactly when the
    file cannot be opened or none of its rows has both a name and a value
    that parses; one loadable row anywhere in the file is enough for a
    non-empty baseline. *)
Theorem load_baseline_results_empty_iff (py_float : string -> option Q)
    (file : csv_file) :
  load_baseline_results py_float file = ∅ <->
  file = None \/
  exists rows, file = Some rows /\
               Forall (fun row => loadable py_float row = false) rows.
Proof.
  destruct file as [rows |]; simpl; [| split; auto].
  split.
  - intros Hempty. right. exists rows. split; [reflexivity |].
    revert Hempty. generalize (∅ : gmap string Q) at 1.
    induction rows as [| row rows IH]; intros acc Hempty; [constructor |].
    simpl in Hempty. destruct row as [| name [| value rest]];
      try (constructor; [reflexivity | eapply IH, Hempty]).
    simpl. destruct (py_float value) as [v |] eqn:Hv.
    + exfalso. revert Hempty. apply load_baseline_rows_nonempty.
      apply insert_non_empty.
    + constructor; [simpl; rewrite Hv; reflexivity | eapply IH, Hempty].
  - intros [Hnone | (rows' & [= <-] & Hrows)]; [discriminate |].
    apply load_baseline_rows_none_loadable, Hrows.
Qed.

Lemma load_baseline_data_rows_prefix (py_float : string -> option Q)
    (rows : list (list string)) :
  forall acc,
    load_baseline_data_rows py_float rows acc
    = load_baseline_rows py_float (good_prefix py_float rows) acc.
Proof.
  induction rows as [| row rows IH]; intros acc; [reflexivity |].
  simpl. destruct row as [| name [| value rest]]; simpl; try apply IH.
  destruct (py_float value) as [v |] eqn:Hv; simpl.
  - rewrite Hv. apply IH.
  - reflexivity.
Qed.

Lemma good_prefix_all (py_float : string -> option Q)
    (rows : list (list string)) :
  Forall (fun row => well_formed py_float row = true) rows ->
  good_prefix py_float rows = rows.
Proof.
  induction 1 as [| row rows Hrow _ IH]; simpl; [reflexivity |].
  rewrite Hrow, IH. reflexivity.
Qed.

(** X7. The dashboard's loader loads what the checker's loader loads from
    the rows in front of the first row whose value does not parse; on a
    file without such a row the two loaders return the same baseline. *)
Theorem load_baseline_data_is_prefix_load (py_float : string -> option Q)
    (rows : list (list string)) :
  load_baseline_data py_float (Some rows)
  = load_baseline_results py_float (Some (good_prefix py_float rows)) /\
  (Forall (fun row => well_formed py_float row = true) rows ->
   load_baseline_data py_float (Some rows)
   = load_baseline_results py_float (Some rows)).
Proof.
  split.
  - apply load_baseline_data_rows_prefix.
  - intros Hall. unfold load_baseline_data, load_baseline_results.
    rewrite load_baseline_data_rows_prefix, good_prefix_all by exact Hall.
    reflexivity.
Qed.

(** ** The report *)

Lemma count_sum_le (p q s : regression_info -> bool)
    (l : list regression_info) :
  Forall (fun r => (p r = true -> s r = true) /\ (q r = true -> s r = true)
                   /\ ~ (p r = true /\ q r = true)) l ->
  (count p l + count q l <= count s l)%nat.
Proof.
  unfold count. induction 1 as [| r l (Hp & Hq & Hpq) _ IH]; simpl; [lia |].
  destruct (p r) eqn:Ep, (q r) eqn:Eq.
  - exfalso. apply Hpq. split; reflexivity.
  - rewrite (Hp eq_refl). simpl. lia.
  - rewrite (Hq eq_refl). simpl. lia.
  - destruct (s r); simpl; lia.
Qed.

Lemma count_all (l : list regression_info) :
  count (fun _ => true) l = length l.
Proof. unfold count. induction l; simpl; [reflexivity | lia]. Qed.

Lemma built_at_major (t : Q) (r : regression_info) :
  (0 <= t)%Q -> built_at t r ->
  has_severity major r = true -> isRegression r = true.
Proof.
  intros Ht (Hreg & _ & Hsev). unfold has_severity.
  rewrite Hreg, Hsev. unfold categorize_severity.
  destruct (Qabs_cases (percentageChange r)) as [[Hc Ha] | [Hc Ha]];
    test_cases; try reflexivity; intros H; try discriminate H; exfalso; lra.
Qed.

(** X9. In the report generated for what [analyze_regressions] returned at
    a threshold [t >= 0], [total_metrics] is the number of details, the
    regressions and the improvements together are at most [total_metrics],
    and the critical and major regressions together are at most the
    regressions. *)
Theorem report_summary_bounds (doc : json) (baseline_data : gmap string Q)
    (t : Q) (now : string) (recs : list regression_info) :
  (0 <= t)%Q ->
  analyze_regressions doc baseline_data t = Ok recs ->
  let report := generate_regression_report now recs in
  details report = recs /\
  total_metrics (summary report) = length (details report) /\
  (regressions (summary report) + improvements (summary report)
   <= total_metrics (summary report))%nat /\
  (critical_regressions (summary report) + major_regressions (summary report)
   <= regressions (summary report))%nat.
Proof.
  intros Ht Hrun. apply analyze_regressions_built in Hrun.
  cbv zeta. simpl. split; [reflexivity |]. split; [reflexivity |]. split.
  - rewrite <- count_all. apply count_sum_le.
    eapply Forall_impl; [exact Hrun |]. intros r Hr.
    split; [reflexivity |]. split; [reflexivity |].
    apply (built_at_flags t r Ht Hr).
  - apply count_sum_le.
    eapply Forall_impl; [exact Hrun |]. intros r Hr. split; [| split].
    + unfold has_severity. intros H. apply bool_decide_eq_true in H.
      apply (built_at_flags t r Ht Hr), H.
    + apply (built_at_major t r Ht Hr).
    + unfold has_severity. intros [H1 H2].
      apply bool_decide_eq_true in H1, H2. congruence.
Qed.

Lemma report_summary_bounds_witness :
  let report := generate_regression_report "2024-01-01"
                  [record_of 5 "a" 120 100] in
  details report = [record_of 5 "a" 120 100] /\
  total_metrics (summary report) = length (details report) /\
  (regressions (summary report) + improvements (summary report)
   <= total_metrics (summary report))%nat /\
  (critical_regressions (summary report) + major_regressions (summary report)
   <= regressions (summary report))%nat.
Proof.
  apply (report_summary_bounds current_B baseline_B 5 "2024-01-01"
           [record_of 5 "a" 120 100]).
  - vm_compute. discriminate.
  - vm_compute. reflexivity.
Defined.

(** ** The exit status of the run *)

(** X10. Once the command line is parsed, [main] of [check_regressions.py]
    ends with status 0 or 1 (the report file being writable).  It ends
    with 1 exactly when the current results did not load (absent, unreadable
    or empty), or the baseline is not empty and either the analysis raises
    or [--fail-on-regression] is set and there is a critical record or more
    than 3 major records.  Without [--fail-on-regression] a run whose
    analysis returns ends with 0 whatever the regressions. *)
Theorem main_exit_code_iff (py_float : string -> option Q) (args : args_t)
    (now : string) (current_file : option json) (baseline_file : csv_file) :
  let o := main py_float args now current_file baseline_file in
  let current_results := load_current_results current_file in
  let baseline_results := load_baseline_results py_float baseline_file in
  let analysis :=
    analyze_regressions current_results baseline_results (threshold args) in
  (exit_code o = 0%Z \/ exit_code o = 1%Z) /\
  (exit_code o = 1%Z <->
   truthy current_results = false \/
   (baseline_results <> ∅ /\
    ((exists e, analysis = Raise e) \/
     (fail_on_regression args = true /\
      exists recs, analysis = Ok recs /\
        ((0 < count (has_severity critical) recs)%nat
         \/ (3 < count (has_severity major) recs)%nat))))).
Proof.
  cbv zeta. unfold main.
  destruct (truthy (load_current_results current_file)) eqn:Hcur; simpl;
    [| split; [right; reflexivity | split; auto]].
  case_bool_decide as Hbase; simpl.
  { split; [left; reflexivity |]. split; [discriminate |].
    intros [H | [H _]]; [discriminate | contradiction]. }
  destruct (analyze_regressions _ _ _) as [recs | e] eqn:Hrun; simpl.
  2: { split; [right; reflexivity |]. split; [| reflexivity].
       intros _. right. split; [exact Hbase |]. left. eauto. }
  destruct (fail_on_regression args) eqn:Hfail; simpl.
  - unfold check_exit_conditions.
    destruct (0 <? count (has_severity critical) recs)%nat eqn:Ec; simpl.
    { apply Nat.ltb_lt in Ec. split; [right; reflexivity |].
      split; [| reflexivity]. intros _. right. split; [exact Hbase |].
      right. split; [reflexivity |]. exists recs. auto. }
    destruct (3 <? count (has_severity major) recs)%nat eqn:Em; simpl.
    { apply Nat.ltb_lt in Em. split; [right; reflexivity |].
      split; [| reflexivity]. intros _. right. split; [exact Hbase |].
      right. split; [reflexivity |]. exists recs. auto. }
    apply Nat.ltb_ge in Ec, Em.
    assert (forall b : bool, snd (if b then (WARN, 0%Z) else (PASS, 0%Z)) = 0%Z)
      as Hzero by (intros []; reflexivity).
    rewrite Hzero. split; [left; reflexivity |]. split; [discriminate |].
    intros [H | (_ & [[e He] | (_ & recs' & [= <-] & Hc)])];
      [discriminate | discriminate | lia].
  - split; [left; reflexivity |]. split; [discriminate |].
    intros [H | (_ & [[e He] | (H & _)])]; discriminate.
Qed.

(** X11. Every report [main] writes is consistent: its summary is the one
    [generate_regression_report] computes from its details (so
    [total_metrics] is their number, and so on), and its details are either
    empty, the baseline being empty, or what [analyze_regressions]
    returned. *)
Theorem main_report_consistent (py_float : string -> option Q)
    (args : args_t) (now : string) (current_file : option json)
    (baseline_file : csv_file) (report : report_t) :
  report_written (main py_float args now current_file baseline_file)
  = Some report ->
  report = generate_regression_report now (details report) /\
  truthy (load_current_results current_file) = true /\
  ((load_baseline_results py_float baseline_file = ∅ /\ details report = [])
   \/ analyze_regressions (load_current_results current_file)
        (load_baseline_results py_float baseline_file) (threshold args)
      = Ok (details report)).
Proof.
  unfold main.
  destruct (truthy (load_current_results current_file)) eqn:Hcur; simpl;
    [| discriminate].
  case_bool_decide as Hbase; simpl.
  { intros [= <-]. split; [reflexivity |]. split; [reflexivity |].
    left. split; [exact Hbase | reflexivity]. }
  destruct (analyze_regressions _ _ _) as [recs | e] eqn:Hrun; simpl;
    [| discriminate].
  destruct (fail_on_regression args); simpl; intros [= <-];
    (split; [reflexivity |]; split; [reflexivity |]; right; reflexivity).
Qed.

Lemma main_report_consistent_witness :
  let report := generate_regression_report "2024-01-01"
                  [record_of 5 "a" 120 100] in
  report = generate_regression_report "2024-01-01" (details report) /\
  truthy (load_current_results (Some current_B)) = true /\
  ((load_baseline_results decimal_float (Some [["a"; "100"]]) = ∅
    /\ details report = [])
   \/ analyze_regressions (load_current_results (Some current_B))
        (load_baseline_results decimal_float (Some [["a"; "100"]]))
        (threshold args_gating)
      = Ok (details report)).
Proof.
  apply (main_report_consistent decimal_float args_gating "2024-01-01"
           (Some current_B) (Some [["a"; "100"]])).
  vm_compute. reflexivity.
Defined.

(** ** The console summary *)

(** *** The severity distribution *)

Section SortBy.
Context {A K : Type} (key : A -> K) (lt : K -> K -> bool).

Lemma insert_by_Permutation (x : A) (l : list A) :
  insert_by key lt x l ≡ₚ x :: l.
Proof.
  induction l as [| y l IH]; simpl; [reflexivity |].
  destruct (lt (key y) (key x)); [| reflexivity].
  rewrite IH. apply Permutation_swap.
Qed.

Lemma sort_by_Permutation (l : list A) : sort_by key lt l ≡ₚ l.
Proof.
  induction l as [| x l IH]; simpl; [reflexivity |].
  rewrite insert_by_Permutation, IH. reflexivity.
Qed.

Let le (a b : A) : Prop := lt (key b) (key a) = false.
Hypothesis le_trans : forall a b c, le a b -> le b c -> le a c.
Hypothesis lt_le : forall a b, lt (key a) (key b) = true -> le a b.

Lemma insert_by_StronglySorted (x : A) (l : list A) :
  StronglySorted le l -> StronglySorted le (insert_by key lt x l).
Proof.
  induction 1 as [| y l Hs IH Hy]; simpl.
  - repeat constructor.
  - destruct (lt (key y) (key x)) eqn:E.
    + constructor; [exact IH |].
      rewrite insert_by_Permutation. constructor; [apply lt_le, E | exact Hy].
    + constructor; [constructor; assumption |].
      constructor; [exact E |].
      eapply Forall_impl; [exact Hy |].
      intros z Hz. eapply le_trans; [exact E | exact Hz].
Qed.

Lemma sort_by_StronglySorted (l : list A) :
  StronglySorted le (sort_by key lt l).
Proof.
  induction l as [| x l IH]; simpl.
  - constructor.
  - apply insert_by_StronglySorted, IH.
Qed.
End SortBy.

Lemma sum_list_perm (l l' : list nat) : l ≡ₚ l' -> sum_list l = sum_list l'.
Proof.
  induction 1; simpl; lia.
Qed.

Lemma bump_sum (s : severity_t) (d : list (severity_t * nat)) :
  sum_list (snd <$> bump s d) = S (sum_list (snd <$> d)).
Proof.
  induction d as [| [s' n] d IH]; [reflexivity |].
  simpl bump. case_bool_decide; csimpl; [lia | rewrite IH; lia].
Qed.

Lemma bump_keys (s : severity_t) (d : list (severity_t * nat)) (s0 : severity_t) :
  s0 ∈ (bump s d).*1 <-> s0 = s \/ s0 ∈ d.*1.
Proof.
  induction d as [| [s' n] d IH]; simpl.
  - rewrite list_elem_of_singleton, elem_of_nil. tauto.
  - case_bool_decide as E; simpl.
    + rewrite !elem_of_cons. subst. tauto.
    + rewrite !elem_of_cons, IH. tauto.
Qed.

Lemma bump_NoDup (s : severity_t) (d : list (severity_t * nat)) :
  NoDup d.*1 -> NoDup (bump s d).*1.
Proof.
  induction d as [| [s' n] d IH]; simpl; intros Hnd.
  - apply NoDup_singleton.
  - apply NoDup_cons in Hnd as [Hs' Hnd]. case_bool_decide as E; simpl.
    + apply NoDup_cons. auto.
    + apply NoDup_cons. split; [| apply IH, Hnd].
      rewrite bump_keys. intros [-> | H]; [congruence | contradiction].
Qed.

Lemma bump_positive (s : severity_t) (d : list (severity_t * nat)) :
  Forall (fun kv => (0 < snd kv)%nat) d ->
  Forall (fun kv => (0 < snd kv)%nat) (bump s d).
Proof.
  induction 1 as [| [s' n] d Hn Hd IH]; simpl.
  - repeat constructor.
  - case_bool_decide; constructor; simpl in *; try assumption; lia.
Qed.

Lemma tally_bump (s0 s : severity_t) (d : list (severity_t * nat)) :
  tally s0 (bump s d)
  = (tally s0 d + (if bool_decide (s0 = s) then 1 else 0))%nat.
Proof.
  induction d as [| [s' n] d IH]; simpl.
  - repeat case_bool_decide; lia.
  - repeat (case_bool_decide; simpl); subst; try congruence; try lia;
      try exact IH.
Qed.

Lemma elem_of_tally (d : list (severity_t * nat)) (s : severity_t) (n : nat) :
  NoDup d.*1 -> Forall (fun kv => (0 < snd kv)%nat) d ->
  (s, n) ∈ d <-> (tally s d = n /\ (0 < n)%nat).
Proof.
  induction d as [| [s' k] d IH]; simpl; intros Hnd Hpos.
  - split; [intros H; inversion H | lia].
  - apply NoDup_cons in Hnd as [Hs' Hnd].
    apply Forall_cons in Hpos as [Hk Hpos]. simpl in Hk.
    rewrite elem_of_cons. case_bool_decide as E.
    + subst s'. split.
      * intros [[= ->] | Hin]; [auto |].
        exfalso. apply Hs'. apply list_elem_of_fmap. exists (s, n). auto.
      * intros [-> _]. left. reflexivity.
    + rewrite (IH Hnd Hpos). split.
      * intros [[= -> ->] | H]; [congruence | exact H].
      * auto.
Qed.

Lemma count_severities_tally (rest : list regression_info) (s : severity_t) :
  forall d,
    tally s (count_severities rest d)
    = (tally s d + count (has_severity s) rest)%nat.
Proof.
  unfold count. induction rest as [| r rest IH]; intros d; simpl; [lia |].
  rewrite IH, tally_bump. unfold has_severity at 2.
  repeat case_bool_decide; subst; simpl; try congruence; lia.
Qed.

Lemma count_severities_wf (rest : list regression_info) :
  forall d,
    NoDup d.*1 -> Forall (fun kv => (0 < snd kv)%nat) d ->
    NoDup (count_severities rest d).*1
    /\ Forall (fun kv => (0 < snd kv)%nat) (count_severities rest d).
Proof.
  induction rest as [| r rest IH]; intros d Hnd Hpos; simpl; [auto |].
  apply IH; [apply bump_NoDup, Hnd | apply bump_positive, Hpos].
Qed.

Lemma count_severities_sum (rest : list regression_info) :
  forall d,
    sum_list (snd <$> count_severities rest d)
    = (sum_list (snd <$> d) + length rest)%nat.
Proof.
  induction rest as [| r rest IH]; intros d; csimpl; [lia |].
  rewrite IH, bump_sum. lia.
Qed.

Lemma severity_name_ltb (a b : severity_t) :
  String.ltb (severity_name a) (severity_name b)
  = (alphabetical a <? alphabetical b)%nat.
Proof. destruct a, b; vm_compute; reflexivity. Qed.

Lemma severity_name_eqb (a b : severity_t) :
  String.eqb (severity_name a) (severity_name b) = bool_decide (a = b).
Proof. destruct a, b; vm_compute; reflexivity. Qed.

Lemma item_lt_spec (a b : severity_t * nat) :
  item_lt (item_key a) (item_key b) = true <->
  (alphabetical (fst a) < alphabetical (fst b))%nat
  \/ (fst a = fst b /\ (snd a < snd b)%nat).
Proof.
  unfold item_lt, item_key. simpl.
  rewrite severity_name_eqb, severity_name_ltb.
  case_bool_decide as E; simpl.
  - rewrite E. destruct (Nat.eqb_spec (snd a) (snd b)) as [-> | Hne]; simpl.
    + split; [discriminate | lia].
    + rewrite Nat.ltb_lt. split; [auto | lia].
  - rewrite Nat.ltb_lt. split; [auto |]. intros [H | [H _]]; [exact H |].
    contradiction.
Qed.

Lemma item_ge_spec (a b : severity_t * nat) :
  item_lt (item_key b) (item_key a) = false <->
  (alphabetical (fst a) < alphabetical (fst b))%nat
  \/ (fst a = fst b /\ (snd a <= snd b)%nat).
Proof.
  rewrite <- not_true_iff_false, item_lt_spec. split.
  - intros H.
    destruct (decide (fst a = fst b)) as [E | E].
    + right. split; [exact E |]. apply Nat.nlt_ge. intros Hlt. apply H.
      right. split; [symmetry; exact E | exact Hlt].
    + left. assert (alphabetical (fst a) <> alphabetical (fst b)).
      { intros Heq. apply E. destruct (fst a), (fst b); try reflexivity;
          discriminate Heq. }
      lia.
  - intros [H | [E H]] [H' | [E' H']]; try lia.
    + rewrite E' in H. lia.
    + rewrite E in H'. lia.
Qed.

(** X13. The severity distribution printed by [print_regression_summary]
    lists each severity that occurs among the records exactly once, with
    the number of records that have it; severities that do not occur are
    not listed; the listed counts add up to the number of records; and the
    lines come in alphabetical order of the severity names. *)
Theorem severity_distribution_counts (recs : list regression_info) :
  let dist := distribution (print_regression_summary recs) in
  NoDup dist.*1 /\
  (forall s n, (s, n) ∈ dist
               <-> (n = count (has_severity s) recs /\ (0 < n)%nat)) /\
  sum_list (snd <$> dist) = length recs /\
  StronglySorted
    (fun a b => String.ltb (severity_name (fst a)) (severity_name (fst b))
                = true) dist.
Proof.
  cbv zeta. simpl.
  pose proof (sort_by_Permutation item_key item_lt (count_severities recs []))
    as Hperm.
  destruct (count_severities_wf recs [] ltac:(constructor) ltac:(constructor))
    as [Hnd Hpos].
  assert (forall s n, (s, n) ∈ count_severities recs []
                      <-> (n = count (has_severity s) recs /\ (0 < n)%nat))
    as Hd.
  { intros s n. rewrite (elem_of_tally _ _ _ Hnd Hpos), count_severities_tally.
    simpl. split; intros [H1 H2]; split; lia. }
  assert (NoDup (sort_by item_key item_lt (count_severities recs [])).*1)
    as Hnd' by (rewrite Hperm; exact Hnd).
  split; [exact Hnd' |]. split; [| split].
  - intros s n. rewrite Hperm. apply Hd.
  - rewrite (sum_list_perm _ (snd <$> count_severities recs [])).
    + rewrite count_severities_sum. reflexivity.
    + rewrite Hperm. reflexivity.
  - pose proof (sort_by_StronglySorted item_key item_lt) as Hsorted.
    specialize (Hsorted
      ltac:(intros a b c; rewrite !item_ge_spec; intros [H1 | [E1 H1]] [H2 | [E2 H2]];
            [left; lia | left; rewrite <- E2; exact H1
            | left; rewrite E1; exact H2
            | right; split; [congruence | lia]])
      ltac:(intros a b; rewrite item_lt_spec, item_ge_spec;
            intros [H | [E H]]; [left; exact H | right; split; [exact E | lia]])
      (count_severities recs [])).
    revert Hnd' Hsorted.
    generalize (sort_by item_key item_lt (count_severities recs [])).
    intros l Hnd' Hs. induction Hs as [| a l Hs IH Ha]; [constructor |].
    simpl in Hnd'. apply NoDup_cons in Hnd' as [Ha' Hnd'].
    constructor; [apply IH, Hnd' |].
    apply Forall_forall. intros b Hb. rewrite Forall_forall in Ha.
    specialize (Ha b Hb). apply item_ge_spec in Ha as [H | [E _]].
    + rewrite severity_name_ltb. apply Nat.ltb_lt, H.
    + exfalso. apply Ha'. rewrite E. apply list_elem_of_fmap.
      exists b. auto.
Qed.

(** ** The figures of the dashboard *)

Lemma py_sum_numbers (times : list (string * Q)) :
  forall acc,
    py_sum (snd <$> ((fun kv => (fst kv, JNum (snd kv))) <$> times)) acc
    = Ok (foldl Qplus acc times.*2).
Proof.
  induction times as [| [m c] times IH]; intros acc; [reflexivity |].
  csimpl. apply IH.
Qed.

Lemma component_rows_numbers (times : list (string * Q)) :
  component_rows ((fun kv => (fst kv, JNum (snd kv))) <$> times)
  = Ok ((fun kv => (fst kv, snd kv, py_min100 (snd kv / 10 * 100)%Q))
          <$> times).
Proof.
  induction times as [| [m c] times IH]; [reflexivity |].
  csimpl. rewrite IH. reflexivity.
Qed.

Lemma generate_dashboard_html_typed (doc : json) (times : list (string * Q))
    (memory : Q) (baseline_data : gmap string Q) :
  average_times_of doc times ->
  memory_of doc memory ->
  nonzero_baselines baseline_data times ->
  exists (changes : gmap string change_t) (d : dashboard_t),
    calculate_performance_changes doc baseline_data = Ok changes /\
    generate_dashboard_html doc baseline_data = Ok d /\
    total_tests d = length times /\
    avg_processing_time d
    = match times with
      | [] => 0%Q
      | _ => (foldl Qplus 0 times.*2
              / inject_Z (Z.of_nat (length times)))%Q
      end /\
    memory_usage d = (memory / inject_Z (1024 * 1024))%Q /\
    regression_count d
    = length (List.filter is_regression_entry (map_to_list changes)) /\
    changes_table d = changes /\
    component_metrics d
    = (fun kv => (fst kv, snd kv, py_min100 (snd kv / 10 * 100)%Q)) <$> times /\
    metric_names d = take 10 times.*1 /\
    metric_values d
    = (fun name => assoc name ((fun kv => (fst kv, JNum (snd kv))) <$> times))
        <$> take 10 times.*1 /\
    memory_available d
    = Z.max 0 (100 - py_int (memory / inject_Z (1024 * 1024))%Q) /\
    alerts d = (if (0 <? regression_count d)%nat
                then alert_warning (regression_count d) else alert_success).
Proof.
  intros Hdoc Hmem Hnz.
  assert (exists changes,
            calculate_performance_changes doc baseline_data = Ok changes)
    as [changes Hch].
  { destruct Hdoc as (fields & -> & Hf).
    unfold calculate_performance_changes. simpl. rewrite Hf.
    apply calculate_items_returns, Hnz. }
  exists changes. unfold generate_dashboard_html. rewrite Hch.
  unfold memory_of in Hmem. rewrite Hmem.
  destruct Hdoc as (fields & -> & Hf).
  cbn [mbind result_bind dict_get dict_items as_number]. rewrite Hf.
  cbn [mbind result_bind dict_get dict_items as_number].
  rewrite component_rows_numbers.
  destruct times as [| [m c] times].
  - eexists. split; [reflexivity |]. split; [reflexivity |].
    repeat split.
  - rewrite py_sum_numbers.
    cbn [mbind result_bind].
    eexists. split; [reflexivity |]. split; [reflexivity |].
    cbn [total_tests avg_processing_time memory_usage regression_count
         changes_table component_metrics metric_names metric_values
         memory_available].
    rewrite !length_fmap, <- !list_fmap_compose.
    repeat split.
Qed.

Lemma assoc_numbers (times : list (string * Q)) (m : string) :
  assoc m ((fun kv => (fst kv, JNum (snd kv))) <$> times)
  = JNum <$> assoc m times.
Proof.
  induction times as [| [k c] times IH]; [reflexivity |].
  csimpl. destruct (String.eqb m k); [reflexivity | exact IH].
Qed.



(** *** The regression count *)

Lemma filter_length_perm {A : Type} (p : A -> bool) (l l' : list A) :
  l ≡ₚ l' -> length (List.filter p l) = length (List.filter p l').
Proof.
  induction 1 as [| x l l' _ IH | x y l | l l' l'' _ IH1 _ IH2]; simpl.
  - reflexivity.
  - destruct (p x); simpl; lia.
  - destruct (p x), (p y); reflexivity.
  - lia.
Qed.

Lemma elem_of_changes_of (baseline_data : gmap string Q)
    (times : list (string * Q)) (m : string) (e : change_t) :
  (m, e) ∈ changes_of baseline_data times <->
  exists c b, (m, c) ∈ times /\ baseline_data !! m = Some b
              /\ e = change_of c b.
Proof.
  induction times as [| [k c] times IH]; simpl.
  - split; [intros H; inversion H | intros (? & ? & H & _); inversion H].
  - destruct (baseline_data !! k) as [b |] eqn:Hb.
    + rewrite elem_of_cons, IH. split.
      * intros [[= -> ->] | (c' & b' & Hin & Hb' & ->)].
        -- exists c, b. repeat split; [left | exact Hb].
        -- exists c', b'. repeat split; [right; exact Hin | exact Hb'].
      * intros (c' & b' & Hin & Hb' & ->).
        apply elem_of_cons in Hin as [[= -> ->] | Hin].
        -- left. congruence.
        -- right. exists c', b'. auto.
    + rewrite IH. split.
      * intros (c' & b' & Hin & Hb' & ->).
        exists c', b'. repeat split; [right; exact Hin | exact Hb'].
      * intros (c' & b' & Hin & Hb' & ->).
        apply elem_of_cons in Hin as [[= -> ->] | Hin]; [congruence |].
        exists c', b'. auto.
Qed.

Lemma changes_of_NoDup (baseline_data : gmap string Q)
    (times : list (string * Q)) :
  NoDup times.*1 -> NoDup (changes_of baseline_data times).
Proof.
  induction times as [| [k c] times IH]; simpl; intros Hnd; [constructor |].
  apply NoDup_cons in Hnd as [Hk Hnd].
  destruct (baseline_data !! k) as [b |]; [| apply IH, Hnd].
  apply NoDup_cons. split; [| apply IH, Hnd].
  intros Hin. apply elem_of_changes_of in Hin as (c' & b' & Hin & _).
  apply Hk. apply list_elem_of_fmap. exists (k, c'). auto.
Qed.

Lemma changes_of_count (baseline_data : gmap string Q)
    (times : list (string * Q)) :
  length (List.filter is_regression_entry (changes_of baseline_data times))
  = count isRegression (records_of 5 baseline_data times).
Proof.
  unfold count. induction times as [| [k c] times IH]; [reflexivity |].
  simpl. destruct (baseline_data !! k) as [b |]; [| exact IH].
  simpl. unfold is_regression_entry at 1. simpl.
  destruct (Qltb 5 ((c - b) / b * 100)); simpl.
  - rewrite IH. reflexivity.
  - destruct (Qltb ((c - b) / b * 100) (-5)); exact IH.
Qed.



(** ** Thresholds that are not positive *)

(** X8. With a threshold [t <= 0] the severity classes collapse: every
    record [analyze_regressions] returns with a positive percentage change
    is critical and every record with a negative change is a
    major_improvement; an unchanged metric is negligible at [t = 0] and a
    major_improvement at [t < 0].  So the exit policy fails at such a
    threshold as soon as one metric got slower at all. *)
Theorem nonpositive_threshold_severity (doc : json)
    (baseline_data : gmap string Q) (t : Q) (recs : list regression_info) :
  (t <= 0)%Q ->
  analyze_regressions doc baseline_data t = Ok recs ->
  (forall r, r ∈ recs ->
     ((0 < percentageChange r)%Q ->
      severity r = critical /\ isRegression r = true) /\
     ((percentageChange r < 0)%Q ->
      severity r = major_improvement /\ isImprovement r = true) /\
     ((percentageChange r == 0)%Q ->
      ((t == 0)%Q -> severity r = negligible) /\
      ((t < 0)%Q -> severity r = major_improvement))) /\
  ((exists r, r ∈ recs /\ (0 < percentageChange r)%Q) ->
   check_exit_conditions recs = (FAIL, 1%Z)).
Proof.
  intros Ht Hrun. pose proof (analyze_regressions_built _ _ _ _ Hrun) as Hb.
  rewrite Forall_forall in Hb.
  assert (forall r, r ∈ recs -> (0 < percentageChange r)%Q ->
                    severity r = critical /\ isRegression r = true) as Hcrit.
  { intros r Hr Hc. destruct (Hb r Hr) as (Hreg & _ & Hsev).
    rewrite Hreg, Hsev. unfold categorize_severity.
    destruct (Qabs_cases (percentageChange r)) as [[H0 Ha] | [H0 Ha]];
      test_cases; split; try reflexivity; exfalso; lra. }
  split.
  - intros r Hr. split; [apply Hcrit, Hr |].
    destruct (Hb r Hr) as (_ & Himp & Hsev). rewrite Himp, Hsev.
    unfold categorize_severity.
    destruct (Qabs_cases (percentageChange r)) as [[H0 Ha] | [H0 Ha]].
    all: split; [intros Hc | intros Hc; split; intros Hz].
    all: test_cases; try split; try reflexivity; exfalso; lra.
  - intros (r & Hr & Hc). destruct (Hcrit r Hr Hc) as [Hsev _].
    unfold check_exit_conditions.
    assert (0 < count (has_severity critical) recs)%nat as Hpos.
    { unfold count. clear Hb Hcrit Hrun.
      induction recs as [| x recs IH]; [inversion Hr |].
      apply elem_of_cons in Hr as [<- | Hr]; simpl.
      - unfold has_severity at 1. rewrite Hsev.
        rewrite bool_decide_eq_true_2 by reflexivity. simpl. lia.
      - specialize (IH Hr). destruct (has_severity critical x); simpl; lia. }
    apply Nat.ltb_lt in Hpos. rewrite Hpos. reflexivity.
Qed.

Lemma nonpositive_threshold_severity_witness :
  let recs := [record_of 0 "a" 101 100] in
  (forall r, r ∈ recs ->
     ((0 < percentageChange r)%Q ->
      severity r = critical /\ isRegression r = true) /\
     ((percentageChange r < 0)%Q ->
      severity r = major_improvement /\ isImprovement r = true) /\
     ((percentageChange r == 0)%Q ->
      ((0 == 0)%Q -> severity r = negligible) /\
      ((0 < 0)%Q -> severity r = major_improvement))) /\
  ((exists r, r ∈ recs /\ (0 < percentageChange r)%Q) ->
   check_exit_conditions recs = (FAIL, 1%Z)).
Proof.
  apply (nonpositive_threshold_severity
           (JObj [("averageTimes", JObj [("a", JNum 101)])]) baseline_B 0).
  - vm_compute. discriminate.
  - vm_compute. reflexivity.
Defined.

(** * Properties of the comparator on binary64 numbers *)

Section Binary64Order.
Local Open Scope Z_scope.

(** ** The order of the format *)

Lemma digits2_pos_bounds (m : positive) :
  2 ^ (Z.pos (digits2_pos m) - 1) <= Z.pos m < 2 ^ Z.pos (digits2_pos m).
Proof.
  induction m as [m IH | m IH |]; simpl digits2_pos.
  - rewrite Pos2Z.inj_succ.
    replace (Z.succ (Z.pos (digits2_pos m)) - 1)
      with (Z.succ (Z.pos (digits2_pos m) - 1)) by lia.
    rewrite !Z.pow_succ_r by lia. lia.
  - rewrite Pos2Z.inj_succ.
    replace (Z.succ (Z.pos (digits2_pos m)) - 1)
      with (Z.succ (Z.pos (digits2_pos m) - 1)) by lia.
    rewrite !Z.pow_succ_r by lia. lia.
  - simpl. lia.
Qed.

Lemma bounded_range (m : positive) (e : Z) :
  bounded prec emax m e = true ->
  Z.max (Z.pos (digits2_pos m) + e - 53) (-1074) = e /\
  -1074 <= e <= 971 /\ Z.pos m < 9007199254740992.
Proof.
  unfold bounded, canonical_mantissa, fexp, emin, emax, prec.
  intros H. apply andb_prop in H as [H1 H2].
  apply Z.eqb_eq in H1. apply Z.leb_le in H2.
  change (3 - 1024 - 53) with (-1074) in H1.
  change (1024 - 53) with 971 in H2.
  split; [exact H1 |]. split; [lia |].
  pose proof (digits2_pos_bounds m) as [_ Hm].
  assert (Z.pos (digits2_pos m) <= 53) as Hd by lia.
  pose proof (Z.pow_le_mono_r 2 _ 53 ltac:(lia) Hd) as Hp.
  change (2 ^ 53) with 9007199254740992 in Hp. lia.
Qed.

Lemma SFcompare_ord (x y : spec_float) :
  valid_binary x = true -> valid_binary y = true ->
  SFis_nan x = false -> SFis_nan y = false ->
  SFcompare x y = Some (ord x ?= ord y).
Proof.
  intros Hx Hy Nx Ny.
  destruct x as [sx | sx | | sx mx ex]; try discriminate Nx;
    destruct y as [sy | sy | | sy my ey]; try discriminate Ny; simpl in Hx, Hy;
    try (apply bounded_range in Hx as (_ & Hex & Hmx));
    try (apply bounded_range in Hy as (_ & Hey & Hmy));
    cbn [SFcompare ord].
  all: try (destruct sx); try (destruct sy); cbv zeta.
  all: try reflexivity.
  all: try (f_equal; symmetry;
            first [ apply Z.compare_lt_iff; lia
                  | apply Z.compare_gt_iff; lia
                  | apply Z.compare_eq_iff; lia ]).
  - (* both negative *)
    f_equal. rewrite Pos.compare_cont_spec; simpl.
    destruct (Z.compare_spec ex ey) as [-> | H | H]; symmetry.
    + destruct (Pos.compare_spec mx my) as [E | E | E]; simpl.
      * apply Z.compare_eq_iff. lia.
      * apply Z.compare_gt_iff. lia.
      * apply Z.compare_lt_iff. lia.
    + apply Z.compare_gt_iff. nia.
    + apply Z.compare_lt_iff. nia.
  - f_equal. rewrite Pos.compare_cont_spec; simpl.
    destruct (Z.compare_spec ex ey) as [-> | H | H]; symmetry.
    + destruct (Pos.compare_spec mx my) as [E | E | E]; simpl.
      * apply Z.compare_eq_iff. lia.
      * apply Z.compare_lt_iff. lia.
      * apply Z.compare_gt_iff. lia.
    + apply Z.compare_lt_iff. nia.
    + apply Z.compare_gt_iff. nia.
Qed.

(** ** Rounding a product *)

Lemma shr_1_m (mrs : shr_record) :
  0 <= shr_m mrs -> shr_m (shr_1 mrs) = shr_m mrs / 2.
Proof.
  destruct mrs as [m r s]. cbn [shr_m]. intros Hm.
  destruct m as [| [p | p |] | p]; cbn [shr_1 shr_m]; try lia.
  - reflexivity.
  - apply (Z.div_unique_pos _ _ _ 1); lia.
  - apply (Z.div_unique_pos _ _ _ 0); lia.
  - reflexivity.
Qed.

Lemma iter_pos_shr_1_m (p : positive) :
  forall mrs, 0 <= shr_m mrs ->
    shr_m (SpecFloat.iter_pos shr_1 p mrs) = shr_m mrs / 2 ^ Z.pos p.
Proof.
  assert (forall k, 0 < 2 ^ Z.pos k) as Hpow by (intros k; apply Z.pow_pos_nonneg; lia).
  induction p as [p IH | p IH |]; intros mrs Hm; cbn [SpecFloat.iter_pos].
  - assert (0 <= shr_m (shr_1 mrs)) as H1.
    { rewrite shr_1_m by exact Hm. apply Z.div_pos; lia. }
    assert (0 <= shr_m (SpecFloat.iter_pos shr_1 p (shr_1 mrs))) as H2.
    { rewrite IH by exact H1. apply Z.div_pos; [exact H1 | apply Hpow]. }
    rewrite IH by exact H2. rewrite IH by exact H1. rewrite shr_1_m by exact Hm.
    specialize (Hpow p).
    rewrite !Z.div_div by lia. f_equal.
    replace (Z.pos p~1) with (1 + Z.pos p + Z.pos p) by lia.
    rewrite !Z.pow_add_r by lia. lia.
  - assert (0 <= shr_m (SpecFloat.iter_pos shr_1 p mrs)) as H2.
    { rewrite IH by exact Hm. apply Z.div_pos; [exact Hm | apply Hpow]. }
    rewrite IH by exact H2. rewrite IH by exact Hm.
    specialize (Hpow p).
    rewrite !Z.div_div by lia. f_equal.
    replace (Z.pos p~0) with (Z.pos p + Z.pos p) by lia.
    rewrite !Z.pow_add_r by lia. lia.
  - rewrite shr_1_m by exact Hm. reflexivity.
Qed.

Lemma round_nearest_even_bounds (m : Z) (l : location) :
  m <= round_nearest_even m l <= m + 1.
Proof.
  destruct l as [| []]; cbn [round_nearest_even]; try lia.
  destruct (Z.even m); lia.
Qed.

(** Dividing a number of [D] digits by [2 ^ n], [n < D], leaves a positive
    number. *)
Lemma shifted_positive (q : positive) (n : Z) :
  0 <= n <= Z.pos (digits2_pos q) - 1 -> 1 <= Z.pos q / 2 ^ n.
Proof.
  intros Hn. apply Z.div_le_lower_bound; [apply Z.pow_pos_nonneg; lia |].
  pose proof (digits2_pos_bounds q) as [Hq _].
  pose proof (Z.pow_le_mono_r 2 n (Z.pos (digits2_pos q) - 1) ltac:(lia) ltac:(lia)).
  lia.
Qed.

(** What [shr_fexp] does to a positive mantissa: the exponent becomes the
    one of the format when that is larger, and the mantissa loses the bits
    in between. *)
Lemma shr_fexp_pos (q : positive) (e : Z) (l : location) :
  let '(mrs, e') := shr_fexp prec emax (Z.pos q) e l in
  e' = Z.max (Z.max (Z.pos (digits2_pos q) + e - 53) (-1074)) e /\
  shr_m mrs = Z.pos q / 2 ^ (e' - e).
Proof.
  unfold shr_fexp, fexp, emin, prec, emax. cbn [Zdigits2].
  change (3 - 1024 - 53) with (-1074).
  set (n := Z.max (Z.pos (digits2_pos q) + e - 53) (-1074) - e).
  assert (shr_m (shr_record_of_loc (Z.pos q) l) = Z.pos q) as Hrec
    by (destruct l as [| []]; reflexivity).
  destruct n as [| p | p] eqn:Hn; cbn [shr]; subst n.
  - split; [lia |]. rewrite Hrec. replace (e - e) with 0 by lia.
    rewrite Z.pow_0_r, Z.div_1_r. reflexivity.
  - split; [lia |]. rewrite iter_pos_shr_1_m by (rewrite Hrec; lia).
    rewrite Hrec. f_equal. f_equal. lia.
  - split; [lia |]. rewrite Hrec. replace (e - e) with 0 by lia.
    rewrite Z.pow_0_r, Z.div_1_r. reflexivity.
Qed.

(** The product of a positive binary64 number [m * 2 ^ e] by a number
    [K * 2 ^ -51] that is at least 2, rounded: it is infinite, or a number
    [q * 2 ^ e2] that is not below [m * 2 ^ e] in the order of the
    format. *)
Lemma binary_round_aux_scale (m K : positive) (e : Z) :
  bounded prec emax m e = true ->
  4503599627370496 <= Z.pos K ->
  let r := binary_round_aux prec emax false (Z.pos (m * K)) (e + -51) loc_Exact in
  r = S754_infinity false \/
  exists q e2, r = S754_finite false q e2 /\
               (e < e2 \/ (e2 = e /\ Z.pos m <= Z.pos q)).
Proof.
  intros Hb HK. apply bounded_range in Hb as (Hcan & He & Hm).
  cbv zeta. unfold binary_round_aux.
  set (M := (m * K)%positive).
  set (D := Z.pos (digits2_pos M)).
  pose proof (digits2_pos_bounds m) as [Hd1 Hd2].
  pose proof (digits2_pos_bounds M) as [HD1 HD2]. fold D in HD1, HD2.
  set (d := Z.pos (digits2_pos m)) in *.
  assert (0 < d) as Hdpos by (unfold d; lia).
  assert (HM : 2 * 2251799813685248 * Z.pos m <= Z.pos M).
  { unfold M. rewrite Pos2Z.inj_mul. nia. }
  assert (d + 52 <= D) as HDd.
  { destruct (Z_lt_le_dec D (d + 52)) as [Hlt | Hge]; [exfalso | exact Hge].
    assert (2 ^ D <= 2 ^ (d + 51)) as Hp
      by (apply Z.pow_le_mono_r; lia).
    replace (d + 51) with ((d - 1) + 52) in Hp by lia.
    rewrite Z.pow_add_r in Hp by lia.
    change (2 ^ 52) with 4503599627370496 in Hp. nia. }
  (* the first shift *)
  pose proof (shr_fexp_pos M (e + -51) loc_Exact) as H1.
  destruct (shr_fexp prec emax (Z.pos M) (e + -51) loc_Exact) as [mrs1 e1].
  destruct H1 as [He1 Hm1]. fold D in He1.
  assert (e <= e1) as Hle by lia.
  assert (1 <= shr_m mrs1) as Hpos1.
  { rewrite Hm1. apply shifted_positive. fold D. lia. }
  assert (e1 = e -> Z.pos m <= shr_m mrs1) as Hsame.
  { intros Heq. rewrite Hm1. replace (e1 - (e + -51)) with 51 by lia.
    apply Z.div_le_lower_bound; [lia |].
    change (2 ^ 51) with 2251799813685248. lia. }
  (* rounding to nearest even *)
  pose proof (round_nearest_even_bounds (shr_m mrs1) (loc_of_shr_record mrs1))
    as Hrne.
  destruct (round_nearest_even (shr_m mrs1) (loc_of_shr_record mrs1))
    as [| q2 | q2]; try lia.
  (* the second shift *)
  pose proof (shr_fexp_pos q2 e1 loc_Exact) as H2.
  destruct (shr_fexp prec emax (Z.pos q2) e1 loc_Exact) as [mrs2 e2].
  destruct H2 as [He2 Hm2].
  set (D2 := Z.pos (digits2_pos q2)) in *.
  assert (1 <= shr_m mrs2) as Hpos2.
  { rewrite Hm2. apply shifted_positive. fold D2. lia. }
  destruct (shr_m mrs2) as [| q3 | q3] eqn:Hq3; try lia.
  destruct (e2 <=? emax - prec); [right | left; reflexivity].
  exists q3, e2. split; [reflexivity |].
  destruct (Z.eq_dec e2 e) as [Heq | Hne]; [right | left; lia].
  split; [exact Heq |].
  assert (e1 = e) as Heq1 by lia. specialize (Hsame Heq1).
  assert (Z.pos q3 = Z.pos q2) as ->.
  { rewrite Hm2. replace (e2 - e1) with 0 by lia.
    rewrite Z.pow_0_r, Z.div_1_r. reflexivity. }
  lia.
Qed.

(** ** Comparisons of binary64 numbers, read in Z *)

Lemma is_nan_spec (x : float) : is_nan x = SFis_nan (Prim2SF x).
Proof.
  unfold is_nan. rewrite FloatAxioms.eqb_spec. unfold SFeqb.
  destruct (SFis_nan (Prim2SF x)) eqn:E.
  - destruct (Prim2SF x); try discriminate E. reflexivity.
  - rewrite SFcompare_ord by (apply Prim2SF_valid || exact E).
    rewrite Z.compare_refl. reflexivity.
Qed.

Lemma compare_ord (x y : float) :
  is_nan x = false -> is_nan y = false ->
  SFcompare (Prim2SF x) (Prim2SF y) = Some (fval x ?= fval y).
Proof.
  rewrite !is_nan_spec. intros Hx Hy.
  apply SFcompare_ord; (apply Prim2SF_valid || assumption).
Qed.

Lemma ltb_ord (x y : float) :
  is_nan x = false -> is_nan y = false ->
  (x <? y)%float = (fval x <? fval y).
Proof.
  intros Hx Hy. rewrite FloatAxioms.ltb_spec. unfold SFltb, Z.ltb.
  rewrite compare_ord by assumption. reflexivity.
Qed.

Lemma leb_ord (x y : float) :
  is_nan x = false -> is_nan y = false ->
  (x <=? y)%float = (fval x <=? fval y).
Proof.
  intros Hx Hy. rewrite FloatAxioms.leb_spec. unfold SFleb, Z.leb.
  rewrite compare_ord by assumption. destruct (fval x ?= fval y); reflexivity.
Qed.

Lemma eqb_ord (x y : float) :
  is_nan x = false -> is_nan y = false ->
  (x =? y)%float = (fval x =? fval y).
Proof.
  intros Hx Hy. rewrite FloatAxioms.eqb_spec. unfold SFeqb.
  rewrite compare_ord by assumption.
  destruct (Z.eqb_spec (fval x) (fval y)) as [E | E].
  - rewrite E, Z.compare_refl. reflexivity.
  - destruct (Z.compare_spec (fval x) (fval y));
      [contradiction | reflexivity | reflexivity].
Qed.

Lemma compare_nan (x y : float) :
  is_nan x = true \/ is_nan y = true ->
  SFcompare (Prim2SF x) (Prim2SF y) = None.
Proof.
  rewrite !is_nan_spec. intros [H | H].
  - destruct (Prim2SF x); try discriminate H. reflexivity.
  - destruct (Prim2SF y); try discriminate H.
    destruct (Prim2SF x); reflexivity.
Qed.

Lemma ltb_nan (x y : float) :
  is_nan x = true \/ is_nan y = true -> (x <? y)%float = false.
Proof.
  intros H. rewrite FloatAxioms.ltb_spec. unfold SFltb. rewrite compare_nan by exact H.
  reflexivity.
Qed.

Lemma leb_nan (x y : float) :
  is_nan x = true \/ is_nan y = true -> (x <=? y)%float = false.
Proof.
  intros H. rewrite FloatAxioms.leb_spec. unfold SFleb. rewrite compare_nan by exact H.
  reflexivity.
Qed.

Lemma eqb_nan (x y : float) :
  is_nan x = true \/ is_nan y = true -> (x =? y)%float = false.
Proof.
  intros H. rewrite FloatAxioms.eqb_spec. unfold SFeqb. rewrite compare_nan by exact H.
  reflexivity.
Qed.

Lemma is_nan_opp (x : float) : is_nan (- x) = is_nan x.
Proof.
  rewrite !is_nan_spec, opp_spec. destruct (Prim2SF x); reflexivity.
Qed.

Lemma is_nan_abs (x : float) : is_nan (abs x) = is_nan x.
Proof.
  rewrite !is_nan_spec, abs_spec. destruct (Prim2SF x); reflexivity.
Qed.

Lemma fval_opp (x : float) : fval (- x) = - fval x.
Proof.
  unfold fval. rewrite opp_spec.
  destruct (Prim2SF x) as [s | s | | s m e]; try destruct s; cbn; lia.
Qed.

Lemma fval_abs (x : float) : fval (abs x) = Z.abs (fval x).
Proof.
  unfold fval. rewrite abs_spec. pose proof (Prim2SF_valid x) as Hv.
  destruct (Prim2SF x) as [s | s | | s m e]; try destruct s; cbn in *;
    try apply bounded_range in Hv as (_ & He & Hm); lia.
Qed.

(** A product by 2 or by 3 of a number that is not negative is not below
    the number. *)
Lemma mul_scale_ge (t k : float) (K : positive) :
  Prim2SF k = S754_finite false K (-51) ->
  4503599627370496 <= Z.pos K ->
  (0 <=? t)%float = true ->
  is_nan (t * k) = false /\ fval t <= fval (t * k).
Proof.
  intros Hk HK Ht. rewrite is_nan_spec. unfold fval.
  rewrite mul_spec, Hk. rewrite FloatAxioms.leb_spec in Ht.
  pose proof (Prim2SF_valid t) as Hv.
  change (Prim2SF 0) with (S754_zero false) in Ht.
  destruct (Prim2SF t) as [s | s | | s m e]; try discriminate Ht.
  - split; reflexivity.
  - destruct s; [discriminate Ht |]. split; [reflexivity | cbn; lia].
  - destruct s; [discriminate Ht |]. cbn [valid_binary] in Hv.
    unfold SF64mul, SFmul. cbn [xorb].
    destruct (binary_round_aux_scale m K e Hv HK)
      as [-> | (q & e2 & -> & Hq)].
    + apply bounded_range in Hv as (_ & He & Hm).
      split; [reflexivity | cbn; lia].
    + apply bounded_range in Hv as (_ & He & Hm).
      split; [reflexivity |]. cbn. lia.
Qed.

Lemma mul_3_ge (t : float) :
  (0 <=? t)%float = true -> is_nan (t * 3) = false /\ fval t <= fval (t * 3).
Proof. apply (mul_scale_ge t 3 6755399441055744); [reflexivity | lia]. Qed.

Lemma mul_2_ge (t : float) :
  (0 <=? t)%float = true -> is_nan (t * 2) = false /\ fval t <= fval (t * 2).
Proof. apply (mul_scale_ge t 2 4503599627370496); [reflexivity | lia]. Qed.

Lemma fval_bound (x : float) :
  - 18437736874454810624 <= fval x <= 18437736874454810624.
Proof.
  unfold fval. pose proof (Prim2SF_valid x) as Hv.
  destruct (Prim2SF x) as [s | s | | s m e]; try destruct s; cbn in *;
    try apply bounded_range in Hv as (_ & He & Hm); lia.
Qed.

Lemma leb_number (x y : float) :
  (x <=? y)%float = true -> is_nan x = false /\ is_nan y = false.
Proof.
  intros H. destruct (is_nan x) eqn:Hx, (is_nan y) eqn:Hy; auto;
    rewrite leb_nan in H by auto; discriminate H.
Qed.

Lemma ltb_number (x y : float) :
  (x <? y)%float = true -> is_nan x = false /\ is_nan y = false.
Proof.
  intros H. destruct (is_nan x) eqn:Hx, (is_nan y) eqn:Hy; auto;
    rewrite ltb_nan in H by auto; discriminate H.
Qed.

Lemma eqb_number (x y : float) :
  (x =? y)%float = true -> is_nan x = false /\ is_nan y = false.
Proof.
  intros H. destruct (is_nan x) eqn:Hx, (is_nan y) eqn:Hy; auto;
    rewrite eqb_nan in H by auto; discriminate H.
Qed.

End Binary64Order.


(** Reading the tests of the code on numbers that are not NaN as
    comparisons in Z. *)
Ltac number :=
  rewrite ?is_nan_opp, ?is_nan_abs; first [assumption | reflexivity].

Ltac in_Z :=
  rewrite ?ltb_ord, ?leb_ord, ?eqb_ord by number;
  rewrite ?fval_opp, ?fval_abs;
  change (fval 0) with 0%Z in *.

Ltac Z_tests :=
  repeat match goal with
    | |- context [(?a <? ?b)%Z] => destruct (Z.ltb_spec a b)
    | |- context [(?a <=? ?b)%Z] => destruct (Z.leb_spec a b)
    | |- context [(?a =? ?b)%Z] => destruct (Z.eqb_spec a b)
    | H : context [(?a <? ?b)%Z] |- _ => destruct (Z.ltb_spec a b)
    | H : context [(?a <=? ?b)%Z] |- _ => destruct (Z.leb_spec a b)
    | H : context [(?a =? ?b)%Z] |- _ => destruct (Z.eqb_spec a b)
    end.

(** ** Severity *)

(** C2. For every percentage change [c] and threshold [t] (in particular
    every [t >= 0]): a degradation ([c > 0]) is critical when [|c| > 3t],
    else major when [|c| > 2t], else minor when [|c| > t], else negligible;
    an improvement ([c < 0]) is major_improvement when [|c| > 2t], else
    minor_improvement when [|c| > t], else negligible.  Here [3t] and [2t]
    are the binary64 products [threshold * 3] and [threshold * 2] of the
    code, and [>] is the comparison of binary64 numbers. *)
Theorem categorize_severity_table (c t : float) :
  ((0 <? c)%float = true ->
     ((t * 3 <? abs c)%float = true ->
        Binary64.categorize_severity c t = critical) /\
     ((t * 3 <? abs c)%float = false -> (t * 2 <? abs c)%float = true ->
        Binary64.categorize_severity c t = major) /\
     ((t * 3 <? abs c)%float = false -> (t * 2 <? abs c)%float = false ->
      (t <? abs c)%float = true ->
        Binary64.categorize_severity c t = minor) /\
     ((t * 3 <? abs c)%float = false -> (t * 2 <? abs c)%float = false ->
      (t <? abs c)%float = false ->
        Binary64.categorize_severity c t = negligible)) /\
  ((c <? 0)%float = true ->
     ((t * 2 <? abs c)%float = true ->
        Binary64.categorize_severity c t = major_improvement) /\
     ((t * 2 <? abs c)%float = false -> (t <? abs c)%float = true ->
        Binary64.categorize_severity c t = minor_improvement) /\
     ((t * 2 <? abs c)%float = false -> (t <? abs c)%float = false ->
        Binary64.categorize_severity c t = negligible)).
Proof.
  unfold Binary64.categorize_severity. split; intros Hc.
  - rewrite Hc. repeat split; intros;
      repeat match goal with H : _ = _ |- _ => rewrite H end; reflexivity.
  - assert ((0 <? c)%float = false) as ->.
    { destruct (ltb_number _ _ Hc) as [Hn _].
      rewrite ltb_ord in Hc |- * by number.
      change (fval 0) with 0%Z in *. lia. }
    repeat split; intros;
      repeat match goal with H : _ = _ |- _ => rewrite H end; reflexivity.
Qed.

(** The products are rounded: 0.1 * 3 is 0.30000000000000004 in binary64,
    so that a change of 0.30000000000000004 at the threshold 0.1 is major,
    not critical. *)
Example categorize_severity_rounded_product :
  (0x1.999999999999ap-4 * 3 =? 0x1.3333333333334p-2)%float = true /\
  Binary64.categorize_severity 0x1.3333333333334p-2 0x1.999999999999ap-4
  = major.
Proof. vm_compute. split; reflexivity. Qed.

(** ** Flags and severity of a record *)

Lemma built_at_flags64 (t : float) (r : Binary64.regression_info) :
  (0 <=? t)%float = true -> Binary64.built_at t r ->
  ~ (Binary64.isRegression r = true /\ Binary64.isImprovement r = true) /\
  ((Binary64.isRegression r = false /\ Binary64.isImprovement r = false)
   <-> ((abs (Binary64.percentageChange r) <=? t)%float = true
        \/ is_nan (Binary64.percentageChange r) = true)) /\
  (Binary64.severity r = critical -> Binary64.isRegression r = true) /\
  (Binary64.severity r = major_improvement
   \/ Binary64.severity r = minor_improvement ->
   Binary64.isImprovement r = true).
Proof.
  intros Ht (Hreg & Himp & Hsev). rewrite Hreg, Himp, Hsev.
  set (c := Binary64.percentageChange r). clearbody c. clear Hreg Himp Hsev.
  unfold Binary64.categorize_severity.
  destruct (mul_3_ge t Ht) as [Hn3 H3]. destruct (mul_2_ge t Ht) as [Hn2 H2].
  destruct (leb_number _ _ Ht) as [_ Hnt].
  rewrite leb_ord in Ht by number. change (fval 0) with 0%Z in Ht.
  apply Z.leb_le in Ht.
  destruct (is_nan c) eqn:Hnc.
  - rewrite !(ltb_nan t c), !(ltb_nan c), !(ltb_nan 0 c) by auto.
    rewrite !(ltb_nan _ (abs c)) by (right; rewrite is_nan_abs; exact Hnc).
    repeat split; try discriminate; auto.
    + intros [H _]. discriminate H.
    + intros [H | H]; discriminate H.
  - in_Z. repeat split.
    all: try (intros [H1 H2']); try (intros [H1 | H1]); try (intros H1).
    all: Z_tests; try reflexivity; try discriminate; try lia; auto.
Qed.

Lemma analyze_metric_built64 (baseline : gmap string float) (t : float)
    (m : string) (v : Binary64.json) (info : Binary64.regression_info) :
  Binary64.analyze_metric baseline t m v = Ok (Some info) ->
  Binary64.built_at t info.
Proof.
  unfold Binary64.analyze_metric.
  destruct (baseline !! m) as [b |]; [| discriminate].
  destruct (Binary64.as_float v) as [c | e]; [| discriminate]. simpl.
  destruct (Binary64.py_div (c - b) b) as [d | e]; [| discriminate]. simpl.
  intros [= <-]. repeat split.
Qed.

Lemma analyze_items_built64 (baseline : gmap string float) (t : float)
    (items : list (string * Binary64.json)) :
  forall acc recs,
    Binary64.analyze_items baseline t items acc = Ok recs ->
    Forall (Binary64.built_at t) acc -> Forall (Binary64.built_at t) recs.
Proof.
  induction items as [| [m v] items IH]; simpl; intros acc recs H Hacc.
  - injection H as <-. exact Hacc.
  - destruct (Binary64.analyze_metric baseline t m v) as [r | e] eqn:E;
      [| discriminate]. simpl in H.
    apply (IH _ _ H). destruct r as [info |]; [| exact Hacc].
    apply Forall_app. split; [exact Hacc |].
    constructor; [| constructor]. eapply analyze_metric_built64, E.
Qed.

Lemma analyze_regressions_ranked64 (doc : Binary64.json)
    (baseline : gmap string float) (t : float)
    (recs : list Binary64.regression_info) :
  Binary64.analyze_regressions doc baseline t = Ok recs ->
  exists regs, recs = Binary64.rank regs /\ Forall (Binary64.built_at t) regs.
Proof.
  unfold Binary64.analyze_regressions.
  destruct (Binary64.dict_get doc "averageTimes" (Binary64.JObj []))
    as [ts | e]; [| discriminate]. simpl.
  destruct (Binary64.dict_items ts) as [items | e]; [| discriminate]. simpl.
  destruct (Binary64.analyze_items baseline t items []) as [l | e] eqn:E;
    [| discriminate]. simpl.
  intros [= <-]. exists l. split; [reflexivity |].
  eapply analyze_items_built64; [exact E | constructor].
Qed.

Lemma rank_perm64 (l : list Binary64.regression_info) : Binary64.rank l ≡ₚ l.
Proof. apply sort_by_Permutation. Qed.

Lemma analyze_regressions_built64 (doc : Binary64.json)
    (baseline : gmap string float) (t : float)
    (recs : list Binary64.regression_info) :
  Binary64.analyze_regressions doc baseline t = Ok recs ->
  Forall (Binary64.built_at t) recs.
Proof.
  intros H. apply analyze_regressions_ranked64 in H as (regs & -> & Hb).
  rewrite rank_perm64. exact Hb.
Qed.

(** C3, as the code has it.  For every record of the list returned by
    [analyze_regressions] with a threshold [t >= 0]: [isRegression] and
    [isImprovement] are not both true; both are false exactly when
    [|percentageChange| <= t] or the percentage change is NaN; severity
    critical implies [isRegression]; and severity major_improvement or
    minor_improvement implies [isImprovement]. *)
Theorem analyze_regressions_flags (doc : Binary64.json)
    (baseline : gmap string float) (t : float)
    (recs : list Binary64.regression_info) (r : Binary64.regression_info) :
  (0 <=? t)%float = true ->
  Binary64.analyze_regressions doc baseline t = Ok recs ->
  r ∈ recs ->
  ~ (Binary64.isRegression r = true /\ Binary64.isImprovement r = true) /\
  ((Binary64.isRegression r = false /\ Binary64.isImprovement r = false)
   <-> ((abs (Binary64.percentageChange r) <=? t)%float = true
        \/ is_nan (Binary64.percentageChange r) = true)) /\
  (Binary64.severity r = critical -> Binary64.isRegression r = true) /\
  (Binary64.severity r = major_improvement
   \/ Binary64.severity r = minor_improvement ->
   Binary64.isImprovement r = true).
Proof.
  intros Ht Hrun Hr. apply built_at_flags64; [exact Ht |].
  apply analyze_regressions_built64 in Hrun.
  rewrite Forall_forall in Hrun. apply Hrun, Hr.
Qed.

Lemma analyze_regressions_flags_witness :
  let r := Binary64.record_of 5 "a" 120 100 in
  ~ (Binary64.isRegression r = true /\ Binary64.isImprovement r = true) /\
  ((Binary64.isRegression r = false /\ Binary64.isImprovement r = false)
   <-> ((abs (Binary64.percentageChange r) <=? 5)%float = true
        \/ is_nan (Binary64.percentageChange r) = true)) /\
  (Binary64.severity r = critical -> Binary64.isRegression r = true) /\
  (Binary64.severity r = major_improvement
   \/ Binary64.severity r = minor_improvement ->
   Binary64.isImprovement r = true).
Proof.
  apply (analyze_regressions_flags Binary64.current_B Binary64.baseline_B 5
           [Binary64.record_of 5 "a" 120 100]).
  - reflexivity.
  - vm_compute. reflexivity.
  - apply list_elem_of_singleton. reflexivity.
Defined.

(** C3 as stated fails: the baseline of metric [b] is NaN, so is the
    percentage change of its record; both flags are false, yet
    [|percentageChange| <= 5] is false too. *)
Lemma analyze_regressions_flags_nan :
  (0 <=? 5)%float = true /\
  exists ra rb rc,
    Binary64.analyze_regressions Binary64.current_N Binary64.baseline_N 5
    = Ok [ra; rb; rc] /\
    Binary64.testName rb = "b" /\
    Binary64.isRegression rb = false /\
    Binary64.isImprovement rb = false /\
    (abs (Binary64.percentageChange rb) <=? 5)%float = false.
Proof.
  split; [reflexivity |]. eexists _, _, _.
  split; [vm_compute; reflexivity |]. repeat split.
Qed.

(** ** Ranking *)

(** The stable insertion sort on a key order that is a total preorder on
    the elements that satisfy [P]. *)
Section SortOn.
Context {A K : Type} (key : A -> K) (lt : K -> K -> bool).
Context (P : A -> Prop) (tie : A -> A -> bool).

Let le (a b : A) : Prop := lt (key b) (key a) = false.

Hypothesis le_trans_on :
  forall a b c, P a -> P b -> P c -> le a b -> le b c -> le a c.
Hypothesis lt_le_on :
  forall a b, P a -> P b -> lt (key a) (key b) = true -> le a b.
Hypothesis tie_not_lt :
  forall x a b, tie x a = true -> tie x b = true -> lt (key a) (key b) = false.

Lemma insert_by_sorted_on (x : A) (l : list A) :
  P x -> Forall P l -> StronglySorted le l ->
  StronglySorted le (insert_by key lt x l).
Proof.
  intros Hx Hl Hs. induction Hs as [| y l Hs IH Hy]; simpl.
  - repeat constructor.
  - apply Forall_cons in Hl as [Hpy Hl].
    destruct (lt (key y) (key x)) eqn:E.
    + constructor; [exact (IH Hl) |].
      rewrite insert_by_Permutation.
      constructor; [apply lt_le_on; assumption | exact Hy].
    + constructor; [constructor; assumption |].
      constructor; [exact E |].
      rewrite Forall_forall in Hy, Hl. apply Forall_forall. intros z Hz.
      apply (le_trans_on x y z); auto.
Qed.

Lemma sort_by_sorted_on (l : list A) :
  Forall P l -> StronglySorted le (sort_by key lt l).
Proof.
  induction 1 as [| x l Hx Hl IH]; simpl.
  - constructor.
  - apply insert_by_sorted_on; [exact Hx | | exact IH].
    rewrite sort_by_Permutation. exact Hl.
Qed.

Lemma sort_by_fixed (l : list A) :
  StronglySorted le l -> sort_by key lt l = l.
Proof.
  induction 1 as [| x l Hs IH Hx]; [reflexivity |].
  simpl. rewrite IH. destruct l as [| y l]; [reflexivity |].
  simpl. inversion Hx as [| ? ? Hxy _]; subst.
  unfold le in Hxy. rewrite Hxy. reflexivity.
Qed.

Lemma insert_by_keeps_ties (x a : A) (l : list A) :
  List.filter (tie x) (insert_by key lt a l) = List.filter (tie x) (a :: l).
Proof.
  induction l as [| y l IH]; [reflexivity |].
  simpl insert_by. destruct (lt (key y) (key a)) eqn:E; [| reflexivity].
  change (List.filter (tie x) (y :: insert_by key lt a l))
    with (if tie x y then y :: List.filter (tie x) (insert_by key lt a l)
          else List.filter (tie x) (insert_by key lt a l)).
  rewrite IH. simpl.
  destruct (tie x y) eqn:Ty, (tie x a) eqn:Ta; try reflexivity.
  rewrite (tie_not_lt x y a Ty Ta) in E. discriminate.
Qed.

Lemma sort_by_keeps_ties (x : A) (l : list A) :
  List.filter (tie x) (sort_by key lt l) = List.filter (tie x) l.
Proof.
  induction l as [| a l IH]; [reflexivity |].
  simpl sort_by. rewrite insert_by_keeps_ties. simpl. rewrite IH. reflexivity.
Qed.

Hypothesis tie_refl_on : forall a, P a -> tie a a = true.
Hypothesis le_le_tie_on :
  forall a b, P a -> P b -> le a b -> le b a -> tie a b = true.

(** Two sorted rearrangements of the same elements that keep the same
    order among tied elements are the same list: what a stable sort returns
    does not depend on how it sorts. *)
Lemma sorted_stable_unique (l1 : list A) :
  forall l2,
    Forall P l1 -> l1 ≡ₚ l2 ->
    StronglySorted le l1 -> StronglySorted le l2 ->
    (forall x, List.filter (tie x) l1 = List.filter (tie x) l2) ->
    l1 = l2.
Proof.
  induction l1 as [| a l1 IH]; intros l2 HP Hperm Hs1 Hs2 Hties.
  - apply Permutation_nil_l in Hperm. congruence.
  - destruct l2 as [| b l2];
      [apply Permutation_nil_r in Hperm; discriminate Hperm |].
    apply Forall_cons in HP as [Ha HP].
    apply StronglySorted_cons in Hs1 as [Hle1 Hs1].
    apply StronglySorted_cons in Hs2 as [Hle2 Hs2].
    rewrite Forall_forall in Hle1, Hle2.
    assert (a = b) as <-.
    { assert (b ∈ a :: l1) as Hb by (rewrite Hperm; left).
      assert (a ∈ b :: l2) as Ha' by (rewrite <- Hperm; left).
      apply elem_of_cons in Hb as [-> | Hb]; [reflexivity |].
      apply elem_of_cons in Ha' as [-> | Ha']; [reflexivity |].
      assert (P b) as Hpb by (rewrite Forall_forall in HP; apply HP, Hb).
      assert (tie a b = true) as Hab
        by (apply le_le_tie_on; [exact Ha | exact Hpb | apply Hle1, Hb
                                | apply Hle2, Ha']).
      specialize (Hties a). simpl in Hties.
      rewrite (tie_refl_on a Ha), Hab in Hties. congruence. }
    f_equal. apply IH; try assumption.
    + eapply Permutation_cons_inv, Hperm.
    + intros x. specialize (Hties x). simpl in Hties.
      destruct (tie x a); congruence.
Qed.
End SortOn.

(** The sort key of a record whose percentage change is a number, as one
    integer: the keys of the regressions are below the keys of the other
    records. *)
Lemma key_lt_zkey (a b : Binary64.regression_info) :
  Binary64.is_number a -> Binary64.is_number b ->
  Binary64.key_lt (Binary64.sort_key a) (Binary64.sort_key b)
  = (zkey a <? zkey b)%Z.
Proof.
  unfold Binary64.is_number, Binary64.key_lt, Binary64.sort_key,
    zkey.
  intros Ha Hb. cbn [fst snd]. in_Z.
  pose proof (fval_bound (Binary64.percentageChange a)).
  pose proof (fval_bound (Binary64.percentageChange b)).
  destruct (Binary64.isRegression a), (Binary64.isRegression b); cbn;
    Z_tests; try reflexivity; lia.
Qed.

Lemma key_le_spec64 (a b : Binary64.regression_info) :
  Binary64.is_number a -> Binary64.is_number b ->
  Binary64.key_le a b ->
  (Binary64.isRegression b = true -> Binary64.isRegression a = true) /\
  (Binary64.isRegression a = Binary64.isRegression b ->
   (abs (Binary64.percentageChange b) <=? abs (Binary64.percentageChange a))%float
   = true).
Proof.
  intros Ha Hb. unfold Binary64.key_le. rewrite key_lt_zkey by assumption.
  unfold Binary64.is_number, zkey in *. in_Z.
  pose proof (fval_bound (Binary64.percentageChange a)).
  pose proof (fval_bound (Binary64.percentageChange b)).
  destruct (Binary64.isRegression a), (Binary64.isRegression b); cbn;
    intros Hle; split; intros; Z_tests;
    try reflexivity; try discriminate; lia.
Qed.

Lemma key_le_trans64 (a b c : Binary64.regression_info) :
  Binary64.is_number a -> Binary64.is_number b -> Binary64.is_number c ->
  Binary64.key_le a b -> Binary64.key_le b c -> Binary64.key_le a c.
Proof.
  intros Ha Hb Hc. unfold Binary64.key_le.
  rewrite !key_lt_zkey by assumption. rewrite !Z.ltb_ge. lia.
Qed.

Lemma key_lt_le64 (a b : Binary64.regression_info) :
  Binary64.is_number a -> Binary64.is_number b ->
  Binary64.key_lt (Binary64.sort_key a) (Binary64.sort_key b) = true ->
  Binary64.key_le a b.
Proof.
  intros Ha Hb. unfold Binary64.key_le.
  rewrite !key_lt_zkey by assumption. rewrite Z.ltb_lt, Z.ltb_ge. lia.
Qed.

Lemma tied_not_lt64 (x a b : Binary64.regression_info) :
  Binary64.tied x a = true -> Binary64.tied x b = true ->
  Binary64.key_lt (Binary64.sort_key a) (Binary64.sort_key b) = false.
Proof.
  unfold Binary64.tied. rewrite !andb_true_iff.
  intros [Ra Ea] [Rb Eb]. apply eqb_prop in Ra, Rb.
  destruct (eqb_number _ _ Ea) as [Hx Ha]. destruct (eqb_number _ _ Eb) as [_ Hb].
  rewrite is_nan_abs in Hx, Ha, Hb.
  rewrite key_lt_zkey by assumption. unfold zkey.
  rewrite <- Ra, <- Rb. revert Ea Eb. in_Z. rewrite !Z.eqb_eq, Z.ltb_ge. lia.
Qed.

Lemma tied_refl64 (a : Binary64.regression_info) :
  Binary64.is_number a -> Binary64.tied a a = true.
Proof.
  unfold Binary64.is_number, Binary64.tied. intros Ha.
  rewrite eqb_reflx. in_Z. apply Z.eqb_refl.
Qed.

Lemma key_le_tied64 (a b : Binary64.regression_info) :
  Binary64.is_number a -> Binary64.is_number b ->
  Binary64.key_le a b -> Binary64.key_le b a -> Binary64.tied a b = true.
Proof.
  intros Ha Hb. unfold Binary64.key_le.
  rewrite !key_lt_zkey by assumption. rewrite !Z.ltb_ge.
  unfold Binary64.is_number, Binary64.tied, zkey in *.
  pose proof (fval_bound (Binary64.percentageChange a)).
  pose proof (fval_bound (Binary64.percentageChange b)).
  in_Z.
  destruct (Binary64.isRegression a), (Binary64.isRegression b); cbn;
    intros H1 H2; Z_tests; try reflexivity; lia.
Qed.

Lemma rank_sorted64 (l : list Binary64.regression_info) :
  Forall Binary64.is_number l ->
  StronglySorted Binary64.key_le (Binary64.rank l).
Proof.
  apply (sort_by_sorted_on _ _ Binary64.is_number).
  - exact key_le_trans64.
  - exact key_lt_le64.
Qed.

(** C5, as the code has it.  When no record has a NaN percentage change:
    in the ranked list every record with [isRegression] true stands before
    every record with [isRegression] false, and inside each of the two
    groups the records stand in descending order of [|percentageChange|];
    records tied on both keys keep their relative order; the ranked list is
    a rearrangement of the records; ranking a ranked list changes nothing;
    a list [analyze_regressions] returned is ranked; and the ranked list is
    the only rearrangement of the records in that order that keeps the
    relative order of the tied records, so that the result does not depend
    on the algorithm of the sort. *)
Theorem rank_order_stable_idempotent (recs : list Binary64.regression_info) :
  Forall Binary64.is_number recs ->
  (forall l1 a l2 b l3,
     Binary64.rank recs = (l1 ++ a :: l2 ++ b :: l3)%list ->
     (Binary64.isRegression b = true -> Binary64.isRegression a = true) /\
     (Binary64.isRegression a = Binary64.isRegression b ->
      (abs (Binary64.percentageChange b)
       <=? abs (Binary64.percentageChange a))%float = true)) /\
  (forall x, List.filter (Binary64.tied x) (Binary64.rank recs)
             = List.filter (Binary64.tied x) recs) /\
  Binary64.rank recs ≡ₚ recs /\
  Binary64.rank (Binary64.rank recs) = Binary64.rank recs /\
  (forall doc baseline t,
     Binary64.analyze_regressions doc baseline t = Ok recs ->
     Binary64.rank recs = recs) /\
  (forall ranked,
     ranked ≡ₚ recs ->
     StronglySorted Binary64.key_le ranked ->
     (forall x, List.filter (Binary64.tied x) ranked
                = List.filter (Binary64.tied x) recs) ->
     ranked = Binary64.rank recs).
Proof.
  intros Hnum.
  pose proof (rank_sorted64 recs Hnum) as Hs.
  assert (Forall Binary64.is_number (Binary64.rank recs)) as Hnum'
    by (rewrite rank_perm64; exact Hnum).
  split; [| split; [| split; [| split; [| split]]]].
  - intros l1 a l2 b l3 Heq. rewrite Heq in Hs, Hnum'.
    apply Forall_app in Hnum' as [_ Hnum'].
    apply Forall_cons in Hnum' as [Hna Hnum'].
    apply Forall_app in Hnum' as [_ Hnum'].
    apply Forall_cons in Hnum' as [Hnb _].
    apply StronglySorted_app_1_r, StronglySorted_cons in Hs as [Ha _].
    rewrite Forall_app, Forall_cons in Ha. destruct Ha as (_ & Hab & _).
    apply key_le_spec64; assumption.
  - intros x. apply (sort_by_keeps_ties _ _ Binary64.tied), tied_not_lt64.
  - apply rank_perm64.
  - apply sort_by_fixed, Hs.
  - intros doc baseline t Hrun.
    apply analyze_regressions_ranked64 in Hrun as (regs & Heq & _).
    assert (Forall Binary64.is_number regs) as Hregs
      by (rewrite <- (rank_perm64 regs), <- Heq; exact Hnum).
    rewrite Heq. apply sort_by_fixed, rank_sorted64, Hregs.
  - intros ranked Hperm Hsorted Hties.
    apply (sorted_stable_unique Binary64.sort_key Binary64.key_lt
             Binary64.is_number Binary64.tied tied_refl64 key_le_tied64).
    + rewrite Hperm. exact Hnum.
    + rewrite Hperm. symmetry. apply rank_perm64.
    + exact Hsorted.
    + exact Hs.
    + intros x. rewrite Hties. symmetry.
      apply (sort_by_keeps_ties _ _ Binary64.tied), tied_not_lt64.
Qed.

Lemma rank_order_stable_idempotent_witness :
  let recs := Binary64.records_of 5 Binary64.baseline_T Binary64.times_T in
  (forall l1 a l2 b l3,
     Binary64.rank recs = (l1 ++ a :: l2 ++ b :: l3)%list ->
     (Binary64.isRegression b = true -> Binary64.isRegression a = true) /\
     (Binary64.isRegression a = Binary64.isRegression b ->
      (abs (Binary64.percentageChange b)
       <=? abs (Binary64.percentageChange a))%float = true)) /\
  (forall x, List.filter (Binary64.tied x) (Binary64.rank recs)
             = List.filter (Binary64.tied x) recs) /\
  Binary64.rank recs ≡ₚ recs /\
  Binary64.rank (Binary64.rank recs) = Binary64.rank recs /\
  (forall doc baseline t,
     Binary64.analyze_regressions doc baseline t = Ok recs ->
     Binary64.rank recs = recs) /\
  (forall ranked,
     ranked ≡ₚ recs ->
     StronglySorted Binary64.key_le ranked ->
     (forall x, List.filter (Binary64.tied x) ranked
                = List.filter (Binary64.tied x) recs) ->
     ranked = Binary64.rank recs).
Proof.
  apply (rank_order_stable_idempotent
           (Binary64.records_of 5 Binary64.baseline_T Binary64.times_T)).
  vm_compute. repeat constructor.
Defined.

(** The ranking of the five records of the sample: the larger regression
    first, the tied regressions and the tied improvements in the order of
    the document. *)
Example ranking_with_ties64 :
  (fun r => (Binary64.testName r, Binary64.isRegression r))
    <$> Binary64.rank
          (Binary64.records_of 5 Binary64.baseline_T Binary64.times_T)
  = [("c", true); ("a", true); ("d", true); ("b", false); ("e", false)].
Proof. vm_compute. reflexivity. Qed.

(** C5 as stated fails: the percentage change of [b] is NaN, no key is
    below the key of its predecessor, and the ranked list is the list as
    it was built, in which [a], 1% slower, stands before [c], 3% slower;
    neither is a regression at the threshold 5. *)
Lemma rank_keeps_order_around_nan :
  exists ra rb rc,
    Binary64.analyze_regressions Binary64.current_N Binary64.baseline_N 5
    = Ok [ra; rb; rc] /\
    Binary64.rank [ra; rb; rc] = [ra; rb; rc] /\
    Binary64.testName ra = "a" /\ Binary64.testName rc = "c" /\
    is_nan (Binary64.percentageChange rb) = true /\
    Binary64.isRegression ra = false /\ Binary64.isRegression rc = false /\
    (abs (Binary64.percentageChange ra)
     <? abs (Binary64.percentageChange rc))%float = true.
Proof.
  eexists _, _, _. split; [vm_compute; reflexivity |].
  vm_compute. repeat split.
Qed.

(** ** The records of the comparator *)

Lemma py_div_nonzero64 (x y : float) :
  (y =? 0)%float = false -> Binary64.py_div x y = Ok (x / y)%float.
Proof. intros Hy. unfold Binary64.py_div. rewrite Hy. reflexivity. Qed.

Lemma analyze_items_records64 (baseline : gmap string float) (t : float)
    (times : list (string * float)) :
  Binary64.nonzero_baselines baseline times ->
  forall acc,
    Binary64.analyze_items baseline t
      ((fun kv => (fst kv, Binary64.JFloat (snd kv))) <$> times) acc
    = Ok (acc ++ Binary64.records_of t baseline times)%list.
Proof.
  induction times as [| [m c] times IH]; intros Hnz acc; simpl.
  - rewrite app_nil_r. reflexivity.
  - assert (Binary64.nonzero_baselines baseline times) as Hnz'.
    { intros m' c' b' Hin. apply (Hnz m' c' b'). right. exact Hin. }
    unfold Binary64.analyze_metric.
    destruct (baseline !! m) as [b |] eqn:Hb; simpl.
    + rewrite py_div_nonzero64 by (apply (Hnz m c b); [left | exact Hb]).
      simpl. rewrite (IH Hnz'), <- app_assoc. reflexivity.
    + apply (IH Hnz').
Qed.

Lemma analyze_items_zero_baseline64 (baseline : gmap string float) (t : float)
    (times : list (string * float)) (m : string) (c b : float) :
  (m, c) ∈ times -> baseline !! m = Some b -> (b =? 0)%float = true ->
  forall acc,
    Binary64.analyze_items baseline t
      ((fun kv => (fst kv, Binary64.JFloat (snd kv))) <$> times) acc
    = Raise ZeroDivisionError.
Proof.
  intros Hin Hb Hz. induction times as [| [k c'] times IH]; intros acc.
  - inversion Hin.
  - simpl. unfold Binary64.analyze_metric.
    destruct (baseline !! k) as [b' |] eqn:Hk; simpl.
    + unfold Binary64.py_div.
      destruct (b' =? 0)%float eqn:E; [reflexivity |]. simpl.
      apply IH. apply elem_of_cons in Hin as [[= <- <-] | Hin]; [| exact Hin].
      congruence.
    + apply IH. apply elem_of_cons in Hin as [[= <- <-] | Hin]; [| exact Hin].
      congruence.
Qed.

Lemma analyze_items_only_zero_division64 (baseline : gmap string float)
    (t : float) (times : list (string * float)) :
  forall acc e,
    Binary64.analyze_items baseline t
      ((fun kv => (fst kv, Binary64.JFloat (snd kv))) <$> times) acc
    = Raise e ->
    e = ZeroDivisionError.
Proof.
  induction times as [| [m c] times IH]; intros acc e; simpl; [discriminate |].
  unfold Binary64.analyze_metric. destruct (baseline !! m) as [b |]; simpl;
    [| apply IH].
  unfold Binary64.py_div. destruct (b =? 0)%float; simpl; [| apply IH].
  intros [= <-]. reflexivity.
Qed.

Lemma elem_of_records_of64 (t : float) (baseline : gmap string float)
    (times : list (string * float)) (r : Binary64.regression_info) :
  r ∈ Binary64.records_of t baseline times <->
  exists m c b, (m, c) ∈ times /\ baseline !! m = Some b
                /\ r = Binary64.record_of t m c b.
Proof.
  induction times as [| [m c] times IH]; simpl.
  - split; [intros H; inversion H | intros (? & ? & ? & H & _); inversion H].
  - destruct (baseline !! m) as [b |] eqn:Hb.
    + rewrite elem_of_cons, IH. split.
      * intros [-> | (m' & c' & b' & Hin & Hb' & ->)].
        -- exists m, c, b. repeat split; [left | exact Hb].
        -- exists m', c', b'. repeat split; [right; exact Hin | exact Hb'].
      * intros (m' & c' & b' & Hin & Hb' & ->).
        apply elem_of_cons in Hin as [[= -> ->] | Hin].
        -- left. congruence.
        -- right. exists m', c', b'. auto.
    + rewrite IH. split.
      * intros (m' & c' & b' & Hin & Hb' & ->).
        exists m', c', b'. repeat split; [right; exact Hin | exact Hb'].
      * intros (m' & c' & b' & Hin & Hb' & ->).
        apply elem_of_cons in Hin as [[= -> ->] | Hin]; [congruence |].
        exists m', c', b'. auto.
Qed.

Lemma filter_named_absent64 (t : float) (baseline : gmap string float)
    (times : list (string * float)) (m : string) :
  m ∉ times.*1 ->
  List.filter (Binary64.named m) (Binary64.records_of t baseline times) = [].
Proof.
  induction times as [| [k c] times IH]; simpl; intros Hm; [reflexivity |].
  apply not_elem_of_cons in Hm as [Hk Hm].
  destruct (baseline !! k); simpl; [| exact (IH Hm)].
  unfold Binary64.named at 1. simpl.
  destruct (String.eqb_spec k m); [congruence | exact (IH Hm)].
Qed.

Lemma filter_named_present64 (t : float) (baseline : gmap string float)
    (times : list (string * float)) (m : string) (c b : float) :
  NoDup times.*1 -> (m, c) ∈ times -> baseline !! m = Some b ->
  List.filter (Binary64.named m) (Binary64.records_of t baseline times)
  = [Binary64.record_of t m c b].
Proof.
  induction times as [| [k c'] times IH]; simpl; intros Hnd Hin Hb.
  - inversion Hin.
  - apply NoDup_cons in Hnd as [Hk Hnd].
    apply elem_of_cons in Hin as [[= <- <-] | Hin].
    + rewrite Hb. simpl. unfold Binary64.named at 1. simpl.
      rewrite String.eqb_refl.
      rewrite filter_named_absent64 by exact Hk. reflexivity.
    + assert (k <> m) as Hkm.
      { intros ->. apply Hk. apply list_elem_of_fmap. exists (m, c). auto. }
      destruct (baseline !! k); simpl; [| exact (IH Hnd Hin Hb)].
      unfold Binary64.named at 1. simpl.
      destruct (String.eqb_spec k m); [contradiction | exact (IH Hnd Hin Hb)].
Qed.

Lemma filter_Permutation64 {A : Type} (p : A -> bool) (l l' : list A) :
  l ≡ₚ l' -> List.filter p l ≡ₚ List.filter p l'.
Proof.
  induction 1 as [| x l l' _ IH | x y l | l l' l'' _ IH1 _ IH2]; simpl.
  - reflexivity.
  - destruct (p x); [constructor |]; exact IH.
  - destruct (p x), (p y); try reflexivity. apply Permutation_swap.
  - etransitivity; eassumption.
Qed.

(** X1. When the document's [averageTimes] maps distinct names to floats
    and no metric common to both sets has a zero baseline,
    [analyze_regressions] returns a list in which every metric [m] present
    in both sets has exactly one record, which holds the two values and
    whose percentage change is the binary64 value of
    [((current[m] - baseline[m]) / baseline[m]) * 100], and in which no
    record bears a name that is missing from either set. *)
Theorem analyze_regressions_one_record_per_common_metric
    (doc : Binary64.json) (times : list (string * float))
    (baseline : gmap string float) (t : float) :
  Binary64.average_times_of doc times ->
  NoDup times.*1 ->
  Binary64.nonzero_baselines baseline times ->
  exists recs,
    Binary64.analyze_regressions doc baseline t = Ok recs /\
    (forall m c b, (m, c) ∈ times -> baseline !! m = Some b ->
       exists r, List.filter (Binary64.named m) recs = [r] /\
                 Binary64.currentValue r = Binary64.JFloat c /\
                 Binary64.baselineValue r = b /\
                 Binary64.percentageChange r = (((c - b) / b) * 100)%float) /\
    (forall m, m ∉ times.*1 \/ baseline !! m = None ->
       forall r, r ∈ recs -> Binary64.testName r <> m).
Proof.
  intros (fields & -> & Hf) Hnd Hnz.
  exists (Binary64.rank (Binary64.records_of t baseline times)). split.
  { unfold Binary64.analyze_regressions. simpl. rewrite Hf. simpl.
    rewrite (analyze_items_records64 _ _ _ Hnz). reflexivity. }
  split.
  - intros m c b Hin Hb. exists (Binary64.record_of t m c b).
    split; [| repeat split].
    apply Permutation_singleton_r.
    rewrite <- (filter_named_present64 t baseline times m c b Hnd Hin Hb).
    apply filter_Permutation64, rank_perm64.
  - intros m Hm r Hr Hname. rewrite rank_perm64 in Hr.
    apply elem_of_records_of64 in Hr as (m' & c & b & Hin & Hb & ->).
    simpl in Hname. subst m'. destruct Hm as [Hm | Hm].
    + apply Hm. apply list_elem_of_fmap. exists (m, c). auto.
    + congruence.
Qed.

Lemma nonzero_baselines_T :
  Binary64.nonzero_baselines Binary64.baseline_T Binary64.times_T.
Proof.
  intros m c b Hin Hb.
  repeat (apply elem_of_cons in Hin as [[= -> ->] | Hin];
          [vm_compute in Hb; injection Hb as <-; reflexivity |]).
  inversion Hin.
Qed.

Lemma analyze_regressions_one_record_per_common_metric_witness :
  exists recs,
    Binary64.analyze_regressions Binary64.current_T Binary64.baseline_T 5
    = Ok recs /\
    (forall m c b,
       (m, c) ∈ Binary64.times_T -> Binary64.baseline_T !! m = Some b ->
       exists r, List.filter (Binary64.named m) recs = [r] /\
                 Binary64.currentValue r = Binary64.JFloat c /\
                 Binary64.baselineValue r = b /\
                 Binary64.percentageChange r = (((c - b) / b) * 100)%float) /\
    (forall m, m ∉ Binary64.times_T.*1 \/ Binary64.baseline_T !! m = None ->
       forall r, r ∈ recs -> Binary64.testName r <> m).
Proof.
  apply (analyze_regressions_one_record_per_common_metric
           Binary64.current_T Binary64.times_T Binary64.baseline_T 5).
  - eexists. split; reflexivity.
  - apply (bool_decide_unpack _). vm_compute. reflexivity.
  - exact nonzero_baselines_T.
Defined.

(** The percentage changes are rounded: 107 against 100 is a change of
    7.000000000000001, not of 7. *)
Example percentage_change_rounded :
  Binary64.percentageChange (Binary64.record_of 5 "a" 107 100)
  = 0x1.c000000000001p+2%float.
Proof. vm_compute. reflexivity. Qed.

(** X2. For a document whose [averageTimes] maps names to floats,
    [analyze_regressions] returns exactly when no metric common to both
    sets has a zero baseline (of either sign); when it raises, the
    exception is [ZeroDivisionError]. *)
Theorem comparison_returns_iff (doc : Binary64.json)
    (times : list (string * float)) (baseline : gmap string float)
    (t : float) :
  Binary64.average_times_of doc times ->
  ((exists recs, Binary64.analyze_regressions doc baseline t = Ok recs)
   <-> Binary64.nonzero_baselines baseline times) /\
  (forall e, Binary64.analyze_regressions doc baseline t = Raise e ->
             e = ZeroDivisionError).
Proof.
  intros (fields & -> & Hf).
  unfold Binary64.analyze_regressions. simpl. rewrite Hf. simpl.
  split; [split |].
  - intros [recs Hrun] m c b Hin Hb.
    destruct (b =? 0)%float eqn:Hz; [| reflexivity].
    rewrite (analyze_items_zero_baseline64 _ _ _ m c b Hin Hb Hz) in Hrun.
    discriminate.
  - intros Hnz. rewrite (analyze_items_records64 _ _ _ Hnz). simpl. eauto.
  - intros e.
    destruct (Binary64.analyze_items baseline t _ []) as [l | e'] eqn:E;
      simpl; [discriminate |].
    intros [= <-]. eapply analyze_items_only_zero_division64, E.
Qed.

Lemma comparison_returns_iff_witness :
  ((exists recs,
      Binary64.analyze_regressions Binary64.current_T Binary64.baseline_T 5
      = Ok recs)
   <-> Binary64.nonzero_baselines Binary64.baseline_T Binary64.times_T) /\
  (forall e,
     Binary64.analyze_regressions Binary64.current_T Binary64.baseline_T 5
     = Raise e ->
     e = ZeroDivisionError).
Proof.
  apply (comparison_returns_iff Binary64.current_T Binary64.times_T
           Binary64.baseline_T 5).
  eexists. split; reflexivity.
Defined.

(** An integer beyond the range of the format is not converted: the
    subtraction raises [OverflowError]. *)
Example analyze_regressions_integer_overflow :
  Binary64.analyze_regressions
    (Binary64.JObj
       [("averageTimes", Binary64.JObj [("a", Binary64.JInt (10 ^ 400))])])
    Binary64.baseline_B 5
  = Raise OverflowError.
Proof. vm_compute. reflexivity. Qed.

(** ** The console summary *)

Lemma filter_improvements_sorted64 (t : float)
    (l : list Binary64.regression_info) :
  (0 <=? t)%float = true ->
  Forall (Binary64.built_at t) l -> Forall Binary64.is_number l ->
  StronglySorted Binary64.key_le l ->
  StronglySorted
    (fun a b => (Binary64.percentageChange a
                 <=? Binary64.percentageChange b)%float = true)
    (List.filter Binary64.isImprovement l).
Proof.
  intros Ht Hb Hn Hs. induction Hs as [| a l Hs IH Ha]; simpl; [constructor |].
  apply Forall_cons in Hb as [Hba Hbl]. apply Forall_cons in Hn as [Hna Hnl].
  destruct (Binary64.isImprovement a) eqn:Eia; [| apply IH; assumption].
  constructor; [apply IH; assumption |].
  apply Forall_forall. intros b Hb.
  apply list_elem_of_In, filter_In in Hb as [Hb Eib].
  apply list_elem_of_In in Hb.
  rewrite Forall_forall in Ha, Hbl, Hnl.
  specialize (Ha b Hb). specialize (Hbl b Hb). specialize (Hnl b Hb).
  apply key_le_spec64 in Ha as [_ Hle]; [| exact Hna | exact Hnl].
  destruct (built_at_flags64 t a Ht Hba) as (Hxa & _).
  destruct (built_at_flags64 t b Ht Hbl) as (Hxb & _).
  assert (Binary64.isRegression a = false) as Era
    by (destruct (Binary64.isRegression a);
        [exfalso; apply Hxa; auto | reflexivity]).
  assert (Binary64.isRegression b = false) as Erb
    by (destruct (Binary64.isRegression b);
        [exfalso; apply Hxb; auto | reflexivity]).
  rewrite Era, Erb in Hle. specialize (Hle eq_refl).
  destruct Hba as (_ & Hia & _). destruct Hbl as (_ & Hib & _).
  rewrite Hia in Eia. rewrite Hib in Eib.
  destruct (leb_number _ _ Ht) as [_ Hnt].
  unfold Binary64.is_number in Hna, Hnl.
  revert Ht Hle Eia Eib. in_Z.
  rewrite !Z.leb_le, !Z.ltb_lt. lia.
Qed.

(** X12. Of the records [analyze_regressions] returned at a threshold
    [t >= 0], none of them with a NaN percentage change, the records
    listed under TOP IMPROVEMENTS are the first five improvements, at most
    five of them, listed from the most negative percentage change on; no
    improvement left out of the list has a more negative change than one
    that is listed. *)
Theorem top_improvements_are_largest (doc : Binary64.json)
    (baseline : gmap string float) (t : float)
    (recs : list Binary64.regression_info) :
  (0 <=? t)%float = true ->
  Binary64.analyze_regressions doc baseline t = Ok recs ->
  Forall Binary64.is_number recs ->
  let shown := Binary64.top_improvements recs in
  let improvements := List.filter Binary64.isImprovement recs in
  shown = take 5 improvements /\
  (length shown <= 5)%nat /\
  StronglySorted
    (fun a b => (Binary64.percentageChange a
                 <=? Binary64.percentageChange b)%float = true) shown /\
  (forall a b, a ∈ shown -> b ∈ drop 5 improvements ->
     (Binary64.percentageChange a
      <=? Binary64.percentageChange b)%float = true).
Proof.
  intros Ht Hrun Hnum. cbv zeta.
  assert (Binary64.top_improvements recs
          = take 5 (List.filter Binary64.isImprovement recs)) as ->.
  { unfold Binary64.top_improvements.
    destruct (List.filter Binary64.isImprovement recs); reflexivity. }
  pose proof (analyze_regressions_built64 _ _ _ _ Hrun) as Hb.
  apply analyze_regressions_ranked64 in Hrun as (regs & -> & _).
  assert (Forall Binary64.is_number regs) as Hregs
    by (rewrite <- (rank_perm64 regs); exact Hnum).
  pose proof (filter_improvements_sorted64 t _ Ht Hb Hnum
                (rank_sorted64 regs Hregs)) as Hs.
  rewrite <- (take_drop 5 (List.filter Binary64.isImprovement
                             (Binary64.rank regs))) in Hs.
  split; [reflexivity |]. split; [rewrite length_take; lia |]. split.
  - eapply StronglySorted_app_1_l, Hs.
  - intros a b Ha Hb'.
    exact (StronglySorted_app_1_elem_of _ _ _ a b Hs Ha Hb').
Qed.

Lemma top_improvements_are_largest_witness :
  let recs := Binary64.rank
                (Binary64.records_of 5 Binary64.baseline_T Binary64.times_T) in
  let shown := Binary64.top_improvements recs in
  let improvements := List.filter Binary64.isImprovement recs in
  shown = take 5 improvements /\
  (length shown <= 5)%nat /\
  StronglySorted
    (fun a b => (Binary64.percentageChange a
                 <=? Binary64.percentageChange b)%float = true) shown /\
  (forall a b, a ∈ shown -> b ∈ drop 5 improvements ->
     (Binary64.percentageChange a
      <=? Binary64.percentageChange b)%float = true).
Proof.
  apply (top_improvements_are_largest Binary64.current_T Binary64.baseline_T 5).
  - reflexivity.
  - vm_compute. reflexivity.
  - vm_compute. repeat constructor.
Defined.

(** With a NaN among the records the list can be out of order: the change
    of [b] is NaN, and the improvement of 10% is listed before the
    improvement of 30%. *)
Example top_improvements_around_nan :
  (fun r => (Binary64.testName r, Binary64.isImprovement r))
    <$> Binary64.top_improvements
          (Binary64.rank
             (Binary64.records_of 5
                (<["a" := 100]> (<["b" := nan]> (<["c" := 100]> ∅)))%float
                [("a", 90); ("b", 120); ("c", 70)]%float))
  = [("a", true); ("c", true)].
Proof. vm_compute. reflexivity. Qed.
